(** * InputTemplateProcessor: a shallow embedding and its verification

    Source: [packages/context-engine/src/processors/InputTemplate.ts].

    The processor rewrites the last user message of a pipeline context by
    substituting its text into a configured template.  The source works on
    JavaScript objects with identity: the context, its message array, its
    metadata mapping and every message are heap objects that are shared by
    reference.  The embedding therefore threads an explicit object store
    through every operation, so that "the original context is not mutated"
    and "this slot still holds the same message object" are statements
    about store locations and not about values. *)

From stdpp Require Import gmap strings list fin_maps.
From Stdlib Require Import Ascii ZArith Lia.

(** ** Values and objects *)

(** Values stored in a metadata mapping. *)
Inductive value :=
| VUndefined
| VBool (b : bool)
| VNumber (n : Z)
| VString (s : string).

(** A reference to a heap object. *)
Abbreviation loc := nat (only parsing).

(** A part of a multimodal content array. *)
Inductive ContentPart :=
| TextPart (text : string)
| ImagePart (url : string).

(** [message.content]: a string, or a structured value for which
    [typeof message.content !== 'string']. *)
Inductive MessageContent :=
| StringContent (s : string)
| PartsContent (parts : list ContentPart).

(** A message.  [others] holds the remaining own properties, which the
    object spread [{...message, content}] copies unchanged. *)
Record Message := mkMessage {
  id : string;
  role : string;
  content : MessageContent;
  others : list (string * value)
}.

(** A pipeline context holds references to its message array and to its
    metadata mapping. *)
Record PipelineContext := mkPipelineContext {
  messages : loc;
  metadata : loc
}.

Inductive object :=
| ObjContext (c : PipelineContext)
| ObjArray (elems : list loc)
| ObjMessage (m : Message)
| ObjRecord (kv : gmap string value).

(** The object store.  A location is an index; allocation appends. *)
Abbreviation heap := (list object) (only parsing).

(** ** The store monad

    A computation reads and writes the store.  [None] is the embedding's
    answer on an ill-typed store (a reference that does not point to an
    object of the expected kind); JavaScript exceptions are modelled
    separately, where the source catches them. *)
Definition M (A : Type) : Type := heap -> option (A * heap).

Definition ret {A} (a : A) : M A := fun h => Some (a, h).

Definition bind {A B} (m : M A) (k : A -> M B) : M B :=
  fun h => match m h with
           | Some (a, h') => k a h'
           | None => None
           end.

Definition stuck {A} : M A := fun _ => None.

Definition getHeap : M heap := fun h => Some (h, h).

Notation "'let*' x := m 'in' k" := (bind m (fun x => k))
  (at level 10, x name, m at level 100, k at level 200).
Notation "m ;; k" := (bind m (fun _ => k))
  (at level 100, k at level 200, right associativity).

(** [new o]: allocate a fresh object. *)
Definition new (o : object) : M loc :=
  fun h => Some (length h, h ++ [o]).

Definition load (l : loc) : M object :=
  fun h => match h !! l with
           | Some o => Some (o, h)
           | None => None
           end.

(** [store l o]: overwrite the object at an allocated location. *)
Definition store (l : loc) (o : object) : M unit :=
  fun h => match h !! l with
           | Some _ => Some (tt, <[l := o]> h)
           | None => None
           end.

Definition loadContext (l : loc) : M PipelineContext :=
  let* o := load l in
  match o with ObjContext c => ret c | _ => stuck end.

Definition loadArray (l : loc) : M (list loc) :=
  let* o := load l in
  match o with ObjArray ms => ret ms | _ => stuck end.

Definition loadMessage (l : loc) : M Message :=
  let* o := load l in
  match o with ObjMessage m => ret m | _ => stuck end.

Definition loadRecord (l : loc) : M (gmap string value) :=
  let* o := load l in
  match o with ObjRecord kv => ret kv | _ => stuck end.

(** ** Observations of a store *)

Definition contextAt (h : heap) (l : loc) : option PipelineContext :=
  match h !! l with Some (ObjContext c) => Some c | _ => None end.

Definition arrayAt (h : heap) (l : loc) : option (list loc) :=
  match h !! l with Some (ObjArray ms) => Some ms | _ => None end.

Definition messageAt (h : heap) (l : loc) : option Message :=
  match h !! l with Some (ObjMessage m) => Some m | _ => None end.

Definition recordAt (h : heap) (l : loc) : option (gmap string value) :=
  match h !! l with Some (ObjRecord kv) => Some kv | _ => None end.

(** [context.messages] as a list of message references. *)
Definition messagesOf (h : heap) (context : loc) : option (list loc) :=
  match contextAt h context with
  | Some c => arrayAt h (messages c)
  | None => None
  end.

(** [context.metadata] as a finite map. *)
Definition metadataOf (h : heap) (context : loc) : option (gmap string value) :=
  match contextAt h context with
  | Some c => recordAt h (metadata c)
  | None => None
  end.

(** The content of every message of a context, in order. *)
Definition contentsOf (h : heap) (context : loc) : option (list (option MessageContent)) :=
  match messagesOf h context with
  | Some ms => Some (map (fun l => option_map content (messageAt h l)) ms)
  | None => None
  end.

(** ** The interpolation pattern

    Strings are sequences of code units; the embedding covers the code
    units below 256. *)

(** The class [\s] on those code units: tab, line feed, vertical tab, form
    feed, carriage return, space and no-break space. *)
Definition isWhiteSpace (c : ascii) : bool :=
  let n := nat_of_ascii c in
  ((9 <=? n) && (n <=? 13)) || (n =? 32) || (n =? 160).

(** [\s*]: drop the longest run of white space. *)
Fixpoint skipWhiteSpace (s : string) : string :=
  match s with
  | String c s' => if isWhiteSpace c then skipWhiteSpace s' else s
  | EmptyString => s
  end.

(** Match a literal at the head of [s]; the rest of [s] on success. *)
Fixpoint stripPrefix (p s : string) : option string :=
  match p, s with
  | EmptyString, _ => Some s
  | String a p', String b s' =>
      if Ascii.eqb a b then stripPrefix p' s' else None
  | String _ _, EmptyString => None
  end.

(** A pattern with one capture group, tried at the head of a string: the
    captured text and the number of code units matched. *)
Definition Pattern := string -> option (string * nat).

(** [/{{\s*(text)\s*}}/g]. *)
Definition interpolate : Pattern := fun s =>
  s1 ← stripPrefix "{{" s;
  s2 ← stripPrefix "text" (skipWhiteSpace s1);
  s3 ← stripPrefix "}}" (skipWhiteSpace s2);
  Some ("text", String.length s - String.length s3).

(** ** The templating engine

    [template] of es-toolkit/compat is a library function outside the
    repository.  The processor is embedded over an arbitrary engine: a
    compilation that may throw ([None]) and yields a function from
    bindings to a string that may throw as well. *)
Definition Bindings := list (string * string).
Definition Compiled := Bindings -> option string.
Definition Engine := string -> Pattern -> option Compiled.

(** Modelled from the spec: the lookup of a placeholder's identifier in
    the bindings, part of the templating engine, which is not part of the
    sources; the empty string when the identifier is unbound. *)
Fixpoint lookupBinding (k : string) (b : Bindings) : string :=
  match b with
  | [] => ""
  | (k', v) :: b' => if String.eqb k k' then v else lookupBinding k b'
  end.

(** Modelled from the spec: the substitution done by the templating
    engine, which is not part of the sources.  The template is scanned
    from left to right; at a position where the pattern matches, the
    binding of the captured identifier is emitted and the match is
    skipped; elsewhere the code unit is copied ("any other placeholder
    syntax is inert text").  [skip] counts the code units of the current
    match that are still to be dropped. *)
Fixpoint render (re : Pattern) (b : Bindings) (skip : nat) (s : string) : string :=
  match s with
  | EmptyString => EmptyString
  | String c s' =>
      match skip with
      | S k => render re b k s'
      | O =>
          match re s with
          | Some (ident, S k) => lookupBinding ident b +:+ render re b k s'
          | Some (ident, O) => lookupBinding ident b +:+ String c (render re b 0 s')
          | None => String c (render re b 0 s')
          end
      end
  end.

(** Modelled from the spec: the templating engine, which is not part of
    the sources.  It "consumes a template string + interpolation pattern,
    returns a compiled function (bindings) -> string"; a placeholder is
    what the pattern matches, and "any other placeholder syntax is inert
    text, not an error".  This engine never throws.  It serves as a sample
    engine only: the call of the processor overrides the [interpolate]
    delimiter and nothing else, so the library's engine may treat other
    syntax in its own way and may throw; no theorem on the processor
    depends on this definition. *)
Definition specTemplate : Engine :=
  fun s re => Some (fun b => Some (render re b 0 s)).

(** ** BaseProcessor *)

(** The key of the execution marker of a stage. *)
Definition executedKey (name : string) : string := name +:+ "Executed".

(** Modelled from the spec: [BaseProcessor.cloneContext], which is not
    part of the sources.  It "produces a structurally independent copy
    suitable for safe mutation (shallow copy of the message sequence
    container plus a fresh metadata mapping; message values inside are
    shared until individually replaced)".  The copy is a new context
    object with a new array holding the same message references and a new
    mapping holding the same entries. *)
Definition cloneContext (context : loc) : M loc :=
  let* c := loadContext context in
  let* ms := loadArray (messages c) in
  let* kv := loadRecord (metadata c) in
  let* messages' := new (ObjArray ms) in
  let* metadata' := new (ObjRecord kv) in
  new (ObjContext {| messages := messages'; metadata := metadata' |}).

(** [context.metadata[key] = v]. *)
Definition setMetadata (context : loc) (key : string) (v : value) : M unit :=
  let* c := loadContext context in
  let* kv := loadRecord (metadata c) in
  store (metadata c) (ObjRecord (<[key := v]> kv)).

(** Modelled from the spec: [BaseProcessor.markAsExecuted], which is not
    part of the sources.  It "stamps bookkeeping (e.g., an execution
    marker in metadata) indicating this stage ran": the marker is filed in
    the metadata of the context it is given, under the stage's name, and
    that context is returned. *)
Definition markAsExecuted (name : string) (context : loc) : M loc :=
  setMetadata context (executedKey name) (VBool true) ;;
  ret context.

(** ** InputTemplateProcessor *)

Record InputTemplateConfig := mkInputTemplateConfig {
  inputTemplate : option string
}.

(** [readonly name = 'InputTemplateProcessor']. *)
Definition name : string := "InputTemplateProcessor".

(** The metadata key of [clonedContext.metadata.inputTemplateProcessed]. *)
Definition inputTemplateProcessed : string := "inputTemplateProcessed".

(** [messages[i]?.role === 'user']: false as well for a slot that holds no
    message. *)
Definition isUserAt (h : heap) (ms : list loc) (i : nat) : bool :=
  match ms !! i with
  | Some l =>
      match messageAt h l with
      | Some m => String.eqb (role m) "user"
      | None => false
      end
  | None => false
  end.

(** The loop [for (let i = n - 1; i >= 0; i--)] with its [break]; [None]
    stands for the initial [-1]. *)
Fixpoint scanDown (h : heap) (ms : list loc) (n : nat) : option nat :=
  match n with
  | O => None
  | S i => if isUserAt h ms i then Some i else scanDown h ms i
  end.

Definition lastUserIndex (h : heap) (ms : list loc) : option nat :=
  scanDown h ms (length ms).

(** [{ ...message, content: processedContent }]. *)
Definition withContent (message : Message) (processedContent : string) : Message :=
  {| id := id message;
     role := role message;
     content := StringContent processedContent;
     others := others message |}.

Section Processor.

(** The engine imported from es-toolkit/compat. *)
Variable template : Engine.

(** The [try] block of [doProcess] (lines 39-86); its value is
    [processedCount] when the block is left.  A [None] of the engine is
    an exception, which the enclosing [catch] swallows, as it would the
    [TypeError] of reading [content] from an empty slot (the scan never
    selects one). *)
Definition applyInputTemplate (inputTemplate : string) (clonedContext : loc) : M Z :=
  match template inputTemplate interpolate with
  | None => ret 0%Z
  | Some compiler =>
      let* c := loadContext clonedContext in
      let* ms := loadArray (messages c) in
      let* h := getHeap in
      match lastUserIndex h ms with
      | None => ret 0%Z
      | Some lastUserIndex =>
          match ms !! lastUserIndex with
          | None => ret 0%Z
          | Some l =>
              let* message := loadMessage l in
              match content message with
              | PartsContent _ => ret 0%Z
              | StringContent originalContent =>
                  match compiler [("text", originalContent)] with
                  | None => ret 0%Z
                  | Some processedContent =>
                      if String.eqb processedContent originalContent
                      then ret 0%Z
                      else
                        let* l' := new (ObjMessage (withContent message processedContent)) in
                        store (messages c) (ObjArray (<[lastUserIndex := l']> ms)) ;;
                        ret 1%Z
                  end
              end
          end
      end
  end.

Definition doProcess (config : InputTemplateConfig) (context : loc) : M loc :=
  let* clonedContext := cloneContext context in
  match inputTemplate config with
  | None | Some EmptyString => markAsExecuted name clonedContext
  | Some (String _ _ as inputTemplate) =>
      let* processedCount := applyInputTemplate inputTemplate clonedContext in
      setMetadata clonedContext inputTemplateProcessed (VNumber processedCount) ;;
      markAsExecuted name clonedContext
  end.

End Processor.

(** ** Reference points of the verification *)

(** The template on which the processor works: [None] when the guard
    [!this.config.inputTemplate] holds. *)
Definition enabledTemplate (config : InputTemplateConfig) : option string :=
  match inputTemplate config with
  | None | Some EmptyString => None
  | Some s => Some s
  end.

(** The store right after [cloneContext]: three fresh objects. *)
Definition clonedHeap (h : heap) (ms : list loc) (kv : gmap string value) : heap :=
  h ++ [ObjArray ms; ObjRecord kv;
        ObjContext {| messages := length h; metadata := S (length h) |}].

(** The rewrite that the [try] block performs, if any: the index of the
    slot, the message found there and the new content. *)
Definition rewriteTarget (template : Engine) (inputTemplate : string)
    (h : heap) (ms : list loc) : option (nat * Message * string) :=
  compiler ← template inputTemplate interpolate;
  i ← lastUserIndex h ms;
  l ← ms !! i;
  message ← messageAt h l;
  match content message with
  | PartsContent _ => None
  | StringContent originalContent =>
      processedContent ← compiler [("text", originalContent)];
      if String.eqb processedContent originalContent then None
      else Some (i, message, processedContent)
  end.

(** The value of [processedCount] for a rewrite target. *)
Definition countOf (t : option (nat * Message * string)) : Z :=
  match t with
  | None => 0%Z
  | Some _ => 1%Z
  end.

(** The store when the [try] block is left: on a rewrite, one more fresh
    object, the new message, and the cloned array updated at the slot. *)
Definition appliedHeap (h : heap) (ms : list loc) (kv : gmap string value)
    (t : option (nat * Message * string)) : heap :=
  match t with
  | None => clonedHeap h ms kv
  | Some (i, message, processedContent) =>
      <[length h := ObjArray (<[i := length h + 3]> ms)]>
        (clonedHeap h ms kv ++ [ObjMessage (withContent message processedContent)])
  end.

(** The metadata of the returned context. *)
Definition finalMetadata (template : Engine) (config : InputTemplateConfig)
    (h : heap) (ms : list loc) (kv : gmap string value) : gmap string value :=
  match enabledTemplate config with
  | None => <[executedKey name := VBool true]> kv
  | Some tpl =>
      <[executedKey name := VBool true]>
        (<[inputTemplateProcessed := VNumber (countOf (rewriteTarget template tpl h ms))]> kv)
  end.

(** The message array of the returned context. *)
Definition finalMessages (template : Engine) (config : InputTemplateConfig)
    (h : heap) (ms : list loc) : list loc :=
  match enabledTemplate config with
  | None => ms
  | Some tpl =>
      match rewriteTarget template tpl h ms with
      | None => ms
      | Some (i, _, _) => <[i := length h + 3]> ms
      end
  end.

(** The store that [doProcess] leaves. *)
Definition finalHeap (template : Engine) (config : InputTemplateConfig)
    (h : heap) (ms : list loc) (kv : gmap string value) : heap :=
  <[S (length h) := ObjRecord (finalMetadata template config h ms kv)]>
    (appliedHeap h ms kv
       (match enabledTemplate config with
        | None => None
        | Some tpl => rewriteTarget template tpl h ms
        end)).


(** A string made of white space only. *)
Fixpoint allWhiteSpace (s : string) : bool :=
  match s with
  | EmptyString => true
  | String c s' => isWhiteSpace c && allWhiteSpace s'
  end.



(** [context.metadata.inputTemplateProcessed], read from a store. *)
Definition recordedCount (h : heap) (context : loc) : option value :=
  kv ← metadataOf h context; kv !! inputTemplateProcessed.

(** The execution marker of this stage, read from a store. *)
Definition executedMark (h : heap) (context : loc) : option value :=
  kv ← metadataOf h context; kv !! executedKey name.

(** Every slot of the array holds a message of the store. *)
Definition allMessages (h : heap) (ms : list loc) : bool :=
  forallb (fun l => match messageAt h l with Some _ => true | None => false end) ms.

(** ** Sample engines and stores *)

(** An engine whose compilation throws. *)
Definition compileThrows : Engine := fun _ _ => None.

(** An engine whose compiled function throws. *)
Definition applyThrows : Engine := fun _ _ => Some (fun _ => None).



Definition sampleMetadata : gmap string value := {[ "traceId" := VString "t-1" ]}.

(** A conversation of three messages; the context is the last object. *)
Definition sampleHeap (last : MessageContent) : heap :=
  [ ObjMessage (mkMessage "m1" "user" (StringContent "first question") []);
    ObjMessage (mkMessage "m2" "assistant" (StringContent "an answer")
                          [("model", VString "gpt")]);
    ObjMessage (mkMessage "m3" "user" last [("createdAt", VNumber 17)]);
    ObjArray [0; 1; 2];
    ObjRecord sampleMetadata;
    ObjContext {| messages := 3; metadata := 4 |} ].

Definition sampleContext : loc := 5.

(** A conversation without a user message. *)
Definition noUserHeap : heap :=
  [ ObjMessage (mkMessage "s1" "system" (StringContent "be brief") []);
    ObjMessage (mkMessage "a1" "assistant" (StringContent "hello") []);
    ObjArray [0; 1];
    ObjRecord sampleMetadata;
    ObjContext {| messages := 2; metadata := 3 |} ].

Definition noUserContext : loc := 4.

(** An engine that renders the one text ["hi"] and throws on any other. *)
Definition rendersHiOnly : Engine :=
  fun _ _ => Some (fun b => if String.eqb (lookupBinding "text" b) "hi"
                            then Some "Context: hi" else None).

(** The suffix of a string from position [n] on. *)
Fixpoint dropString (n : nat) (s : string) : string :=
  match n, s with
  | O, _ => s
  | S k, String _ s' => dropString k s'
  | S _, EmptyString => EmptyString
  end.

(** No code unit of the string is an opening brace. *)
Fixpoint noBrace (s : string) : bool :=
  match s with
  | EmptyString => true
  | String c s' => negb (Ascii.eqb "{" c) && noBrace s'
  end.

(** * Lemmas on the store *)

Lemma lookup_clonedHeap_old h ms kv l :
  l < length h -> clonedHeap h ms kv !! l = h !! l.
Proof. intros Hl. unfold clonedHeap. by apply lookup_app_l. Qed.

Lemma length_clonedHeap h ms kv : length (clonedHeap h ms kv) = length h + 3.
Proof. unfold clonedHeap. rewrite length_app. simpl. lia. Qed.

Lemma lookup_clonedHeap_array h ms kv :
  clonedHeap h ms kv !! length h = Some (ObjArray ms).
Proof.
  unfold clonedHeap. rewrite lookup_app_r by lia.
  by replace (length h - length h) with 0 by lia.
Qed.

Lemma lookup_clonedHeap_record h ms kv :
  clonedHeap h ms kv !! S (length h) = Some (ObjRecord kv).
Proof.
  unfold clonedHeap. rewrite lookup_app_r by lia.
  by replace (S (length h) - length h) with 1 by lia.
Qed.

Lemma lookup_clonedHeap_context h ms kv :
  clonedHeap h ms kv !! (length h + 2) =
  Some (ObjContext {| messages := length h; metadata := S (length h) |}).
Proof.
  unfold clonedHeap. rewrite lookup_app_r by lia.
  by replace (length h + 2 - length h) with 2 by lia.
Qed.

(** A reference held in the original store sees the same message, or the
    same absence of one, after the clone. *)
Lemma messageAt_clonedHeap h ms kv l :
  messageAt (clonedHeap h ms kv) l = messageAt h l.
Proof.
  unfold messageAt. destruct (decide (l < length h)) as [Hl|Hl].
  - by rewrite lookup_clonedHeap_old.
  - rewrite (lookup_ge_None_2 h l) by lia.
    unfold clonedHeap. rewrite lookup_app_r by lia.
    destruct (l - length h) as [|[|[|k]]]; reflexivity.
Qed.

Lemma isUserAt_clonedHeap h ms kv ms' i :
  isUserAt (clonedHeap h ms kv) ms' i = isUserAt h ms' i.
Proof. unfold isUserAt. destruct (ms' !! i); [|done]. by rewrite messageAt_clonedHeap. Qed.

Lemma scanDown_clonedHeap h ms kv ms' n :
  scanDown (clonedHeap h ms kv) ms' n = scanDown h ms' n.
Proof.
  induction n as [|n IH]; simpl; [done|].
  rewrite isUserAt_clonedHeap, IH. done.
Qed.

Lemma lastUserIndex_clonedHeap h ms kv ms' :
  lastUserIndex (clonedHeap h ms kv) ms' = lastUserIndex h ms'.
Proof. apply scanDown_clonedHeap. Qed.

Lemma rewriteTarget_clonedHeap template tpl h ms kv ms' :
  rewriteTarget template tpl (clonedHeap h ms kv) ms' = rewriteTarget template tpl h ms'.
Proof.
  unfold rewriteTarget. destruct (template tpl interpolate); simpl; [|done].
  rewrite lastUserIndex_clonedHeap. destruct (lastUserIndex h ms'); simpl; [|done].
  destruct (ms' !! n); simpl; [|done]. by rewrite messageAt_clonedHeap.
Qed.

(** * Lemmas on the scan *)

Lemma scanDown_Some h ms n i :
  scanDown h ms n = Some i ->
  i < n /\ isUserAt h ms i = true /\
  forall j, i < j -> j < n -> isUserAt h ms j = false.
Proof.
  induction n as [|n IH]; simpl; [done|].
  destruct (isUserAt h ms n) eqn:Hu.
  - intros [= <-]. split; [lia|]. split; [done|]. intros j ? ?. lia.
  - intros Hs. destruct (IH Hs) as (Hi & Hui & Hlater).
    split; [lia|]. split; [done|]. intros j Hij Hj.
    destruct (decide (j = n)) as [->|Hne]; [done|]. apply Hlater; lia.
Qed.

Lemma scanDown_None h ms n :
  scanDown h ms n = None -> forall j, j < n -> isUserAt h ms j = false.
Proof.
  induction n as [|n IH]; simpl; [intros _ j; lia|].
  destruct (isUserAt h ms n) eqn:Hu; [done|].
  intros Hs j Hj. destruct (decide (j = n)) as [->|Hne]; [done|].
  apply IH; [done|lia].
Qed.

Lemma isUserAt_true h ms i :
  isUserAt h ms i = true ->
  exists l m, ms !! i = Some l /\ messageAt h l = Some m /\ role m = "user".
Proof.
  unfold isUserAt. destruct (ms !! i) as [l|]; [|done].
  destruct (messageAt h l) as [m|] eqn:Hm; [|done].
  intros Hr%String.eqb_eq. exists l, m. auto.
Qed.

Lemma isUserAt_false h ms i l m :
  isUserAt h ms i = false -> ms !! i = Some l -> messageAt h l = Some m ->
  role m <> "user".
Proof.
  unfold isUserAt. intros Hu Hl Hm. rewrite Hl, Hm in Hu. by apply String.eqb_neq.
Qed.

(** * The processor, step by step *)

Lemma messageAt_Some h l m :
  messageAt h l = Some m -> h !! l = Some (ObjMessage m).
Proof.
  unfold messageAt. destruct (h !! l) as [[]|]; try done. by intros [= ->].
Qed.

Lemma messagesOf_Some h context ms :
  messagesOf h context = Some ms ->
  exists c, h !! context = Some (ObjContext c) /\ h !! messages c = Some (ObjArray ms).
Proof.
  unfold messagesOf, contextAt, arrayAt.
  destruct (h !! context) as [[c| | |]|] eqn:Hc; try done.
  destruct (h !! messages c) as [[]|] eqn:Ha; try done.
  intros [= ->]. by exists c.
Qed.

Lemma metadataOf_Some h context kv :
  metadataOf h context = Some kv ->
  exists c, h !! context = Some (ObjContext c) /\ h !! metadata c = Some (ObjRecord kv).
Proof.
  unfold metadataOf, contextAt, recordAt.
  destruct (h !! context) as [[c| | |]|] eqn:Hc; try done.
  destruct (h !! metadata c) as [[]|] eqn:Ha; try done.
  intros [= ->]. by exists c.
Qed.

Lemma cloneContext_spec h context ms kv :
  messagesOf h context = Some ms ->
  metadataOf h context = Some kv ->
  cloneContext context h = Some (length h + 2, clonedHeap h ms kv).
Proof.
  intros (c & Hc & Ha)%messagesOf_Some (c' & Hc' & Hr)%metadataOf_Some.
  assert (c' = c) as -> by congruence.
  unfold cloneContext, bind, loadContext, loadArray, loadRecord, load, new, ret, bind.
  rewrite Hc, Ha, Hr. unfold clonedHeap.
  rewrite !length_app. simpl. rewrite <- !app_assoc. simpl.
  replace (length h + 1 + 1) with (length h + 2) by lia.
  replace (length h + 1) with (S (length h)) by lia. done.
Qed.

Lemma setMetadata_spec h context c kv key v :
  h !! context = Some (ObjContext c) ->
  h !! metadata c = Some (ObjRecord kv) ->
  setMetadata context key v h =
  Some (tt, <[metadata c := ObjRecord (<[key := v]> kv)]> h).
Proof.
  intros Hc Hr.
  unfold setMetadata, bind, loadContext, loadRecord, load, store, ret, bind.
  by rewrite Hc, Hr, Hr.
Qed.

Lemma markAsExecuted_spec h context c kv stage :
  h !! context = Some (ObjContext c) ->
  h !! metadata c = Some (ObjRecord kv) ->
  markAsExecuted stage context h =
  Some (context, <[metadata c := ObjRecord (<[executedKey stage := VBool true]> kv)]> h).
Proof.
  intros Hc Hr. unfold markAsExecuted, bind.
  by rewrite (setMetadata_spec h context c kv).
Qed.

Lemma lastUserIndex_Some h ms i :
  lastUserIndex h ms = Some i ->
  exists l m, ms !! i = Some l /\ messageAt h l = Some m /\ role m = "user".
Proof.
  intros (_ & Hu & _)%scanDown_Some. by apply isUserAt_true.
Qed.

Lemma applyInputTemplate_spec template tpl h ms kv :
  applyInputTemplate template tpl (length h + 2) (clonedHeap h ms kv) =
  Some (countOf (rewriteTarget template tpl h ms),
        appliedHeap h ms kv (rewriteTarget template tpl h ms)).
Proof.
  unfold applyInputTemplate, rewriteTarget.
  destruct (template tpl interpolate) as [compiler|]; simpl; [|done].
  unfold bind at 1. unfold loadContext, bind, load.
  rewrite lookup_clonedHeap_context. simpl.
  unfold loadArray, bind, load. simpl.
  rewrite lookup_clonedHeap_array. simpl.
  rewrite lastUserIndex_clonedHeap.
  destruct (lastUserIndex h ms) as [i|] eqn:Hi; simpl; [|done].
  destruct (lastUserIndex_Some _ _ _ Hi) as (l & m & Hl & Hm & _).
  rewrite Hl. simpl. rewrite Hm. simpl.
  unfold loadMessage, bind, load.
  rewrite (messageAt_Some (clonedHeap h ms kv) l m)
    by (by rewrite messageAt_clonedHeap).
  simpl. destruct (content m) as [s|parts]; [|done].
  destruct (compiler [("text", s)]) as [s'|]; simpl; [|done].
  destruct (String.eqb s' s); [done|].
  unfold new, store, ret. simpl.
  rewrite lookup_app_l by (rewrite length_clonedHeap; lia).
  rewrite lookup_clonedHeap_array. rewrite length_clonedHeap. done.
Qed.

Lemma length_appliedHeap h ms kv t :
  length (appliedHeap h ms kv t) =
  length h + 3 + match t with Some _ => 1 | None => 0 end.
Proof.
  destruct t as [[[i m] s]|]; simpl.
  - rewrite length_insert, length_app, length_clonedHeap. simpl. lia.
  - rewrite length_clonedHeap. lia.
Qed.

Lemma lookup_appliedHeap_old h ms kv t l :
  l < length h -> appliedHeap h ms kv t !! l = h !! l.
Proof.
  intros Hl. destruct t as [[[i m] s]|]; simpl.
  - rewrite list_lookup_insert_ne by lia.
    rewrite lookup_app_l by (rewrite length_clonedHeap; lia).
    by apply lookup_clonedHeap_old.
  - by apply lookup_clonedHeap_old.
Qed.

Lemma lookup_appliedHeap_record h ms kv t :
  appliedHeap h ms kv t !! S (length h) = Some (ObjRecord kv).
Proof.
  destruct t as [[[i m] s]|]; simpl.
  - rewrite list_lookup_insert_ne by lia.
    rewrite lookup_app_l by (rewrite length_clonedHeap; lia).
    apply lookup_clonedHeap_record.
  - apply lookup_clonedHeap_record.
Qed.

Lemma lookup_appliedHeap_context h ms kv t :
  appliedHeap h ms kv t !! (length h + 2) =
  Some (ObjContext {| messages := length h; metadata := S (length h) |}).
Proof.
  destruct t as [[[i m] s]|]; simpl.
  - rewrite list_lookup_insert_ne by lia.
    rewrite lookup_app_l by (rewrite length_clonedHeap; lia).
    apply lookup_clonedHeap_context.
  - apply lookup_clonedHeap_context.
Qed.

Lemma lookup_appliedHeap_array h ms kv t :
  appliedHeap h ms kv t !! length h =
  Some (ObjArray match t with
                 | Some (i, _, _) => <[i := length h + 3]> ms
                 | None => ms
                 end).
Proof.
  destruct t as [[[i m] s]|]; simpl.
  - apply list_lookup_insert_eq. rewrite length_app, length_clonedHeap. lia.
  - apply lookup_clonedHeap_array.
Qed.

Lemma lookup_appliedHeap_new h ms kv i m s :
  appliedHeap h ms kv (Some (i, m, s)) !! (length h + 3) =
  Some (ObjMessage (withContent m s)).
Proof.
  simpl. rewrite list_lookup_insert_ne by lia.
  rewrite lookup_app_r by (rewrite length_clonedHeap; lia).
  rewrite length_clonedHeap. by replace (length h + 3 - (length h + 3)) with 0 by lia.
Qed.

(** The processor returns, and both the returned reference and the store
    it leaves are known. *)
Lemma doProcess_spec template config h context ms kv :
  messagesOf h context = Some ms ->
  metadataOf h context = Some kv ->
  doProcess template config context h =
  Some (length h + 2, finalHeap template config h ms kv).
Proof.
  intros Hms Hkv. unfold doProcess, bind at 1.
  rewrite (cloneContext_spec h context ms kv Hms Hkv).
  unfold finalHeap, finalMetadata, enabledTemplate.
  pose (c := {| messages := length h; metadata := S (length h) |}).
  destruct (inputTemplate config) as [[|a tpl]|].
  - rewrite (markAsExecuted_spec _ _ c kv);
      [reflexivity | apply lookup_clonedHeap_context | apply lookup_clonedHeap_record].
  - unfold bind. rewrite applyInputTemplate_spec.
    rewrite (setMetadata_spec _ _ c kv);
      [| apply lookup_appliedHeap_context | apply lookup_appliedHeap_record].
    rewrite (markAsExecuted_spec _ _ c
               (<[inputTemplateProcessed :=
                    VNumber (countOf (rewriteTarget template (String a tpl) h ms))]> kv)).
    + simpl metadata. by rewrite list_insert_insert_eq.
    + rewrite list_lookup_insert_ne by (simpl; lia). apply lookup_appliedHeap_context.
    + simpl metadata. apply list_lookup_insert_eq.
      rewrite length_appliedHeap. lia.
  - rewrite (markAsExecuted_spec _ _ c kv);
      [reflexivity | apply lookup_clonedHeap_context | apply lookup_clonedHeap_record].
Qed.

(** ** What the returned store holds *)

Lemma finalHeap_old template config h ms kv l :
  l < length h -> finalHeap template config h ms kv !! l = h !! l.
Proof.
  intros Hl. unfold finalHeap. rewrite list_lookup_insert_ne by lia.
  by apply lookup_appliedHeap_old.
Qed.

Lemma metadataOf_finalHeap template config h ms kv :
  metadataOf (finalHeap template config h ms kv) (length h + 2) =
  Some (finalMetadata template config h ms kv).
Proof.
  unfold metadataOf, contextAt, recordAt, finalHeap.
  rewrite list_lookup_insert_ne by lia. rewrite lookup_appliedHeap_context.
  simpl. rewrite list_lookup_insert_eq; [done|]. rewrite length_appliedHeap. lia.
Qed.

Lemma messagesOf_finalHeap template config h ms kv :
  messagesOf (finalHeap template config h ms kv) (length h + 2) =
  Some (finalMessages template config h ms).
Proof.
  unfold messagesOf, contextAt, arrayAt, finalHeap, finalMessages.
  rewrite list_lookup_insert_ne by lia. rewrite lookup_appliedHeap_context.
  simpl. rewrite list_lookup_insert_ne by lia. rewrite lookup_appliedHeap_array.
  destruct (enabledTemplate config) as [tpl|]; [|done].
  by destruct (rewriteTarget template tpl h ms) as [[[i m] s]|].
Qed.

(** A message object of the returned store is a message object of the
    original store, or the one that the rewrite allocated. *)
Lemma messageAt_finalHeap template config h ms kv l m :
  messageAt (finalHeap template config h ms kv) l = Some m ->
  (l < length h /\ messageAt h l = Some m) \/
  (exists tpl i m0 s,
      enabledTemplate config = Some tpl /\
      rewriteTarget template tpl h ms = Some (i, m0, s) /\
      l = length h + 3 /\ m = withContent m0 s).
Proof.
  intros Hm. destruct (decide (l < length h)) as [Hl|Hl].
  { left. split; [done|]. unfold messageAt in *. by rewrite finalHeap_old in Hm. }
  right. unfold messageAt, finalHeap in Hm.
  destruct (decide (l = S (length h))) as [->|Hne1].
  { rewrite list_lookup_insert_eq in Hm; [done|]. rewrite length_appliedHeap. lia. }
  rewrite list_lookup_insert_ne in Hm by lia.
  destruct (decide (l = length h)) as [->|Hne2].
  { by rewrite lookup_appliedHeap_array in Hm. }
  destruct (decide (l = length h + 2)) as [->|Hne3].
  { by rewrite lookup_appliedHeap_context in Hm. }
  destruct (enabledTemplate config) as [tpl|] eqn:He.
  - destruct (rewriteTarget template tpl h ms) as [[[i m0] s]|] eqn:Ht.
    + destruct (decide (l = length h + 3)) as [->|Hne4].
      * rewrite lookup_appliedHeap_new in Hm. injection Hm as <-.
        by exists tpl, i, m0, s.
      * rewrite lookup_ge_None_2 in Hm; [done|].
        rewrite length_appliedHeap. lia.
    + rewrite lookup_ge_None_2 in Hm; [done|]. rewrite length_appliedHeap. lia.
  - rewrite lookup_ge_None_2 in Hm; [done|]. rewrite length_appliedHeap. lia.
Qed.

Lemma messageAt_finalHeap_old template config h ms kv l :
  l < length h ->
  messageAt (finalHeap template config h ms kv) l = messageAt h l.
Proof. intros Hl. unfold messageAt. by rewrite finalHeap_old. Qed.

Lemma messageAt_finalHeap_new template config h ms kv tpl i m s :
  enabledTemplate config = Some tpl ->
  rewriteTarget template tpl h ms = Some (i, m, s) ->
  messageAt (finalHeap template config h ms kv) (length h + 3) =
  Some (withContent m s).
Proof.
  intros He Ht. unfold messageAt, finalHeap. rewrite He, Ht.
  rewrite list_lookup_insert_ne by lia. by rewrite lookup_appliedHeap_new.
Qed.

(** ** The selected slot *)

Lemma isUserAt_out_of_range h ms j :
  length ms <= j -> isUserAt h ms j = false.
Proof. intros Hj. unfold isUserAt. by rewrite lookup_ge_None_2. Qed.

Lemma scanDown_found h ms n i :
  i < n -> isUserAt h ms i = true ->
  (forall j, i < j -> j < n -> isUserAt h ms j = false) ->
  scanDown h ms n = Some i.
Proof.
  induction n as [|n IH]; [lia|]. intros Hi Hu Hlater. simpl.
  destruct (decide (i = n)) as [->|Hne].
  - by rewrite Hu.
  - rewrite (Hlater n) by lia. apply IH; [lia|done|]. intros j ? ?. apply Hlater; lia.
Qed.

(** [lastUserIndex] is the largest index whose slot holds a user message. *)
Lemma lastUserIndex_iff h ms i :
  lastUserIndex h ms = Some i <->
  isUserAt h ms i = true /\ forall j, i < j -> isUserAt h ms j = false.
Proof.
  unfold lastUserIndex. split.
  - intros (Hi & Hu & Hlater)%scanDown_Some. split; [done|]. intros j Hij.
    destruct (decide (j < length ms)); [by apply Hlater|].
    apply isUserAt_out_of_range. lia.
  - intros [Hu Hlater]. apply scanDown_found; [|done|by intros; apply Hlater].
    destruct (decide (i < length ms)); [done|].
    rewrite isUserAt_out_of_range in Hu by lia. done.
Qed.

Lemma lastUserIndex_None h ms :
  lastUserIndex h ms = None <-> forall j, isUserAt h ms j = false.
Proof.
  unfold lastUserIndex. split.
  - intros Hs j. destruct (decide (j < length ms)).
    + by apply (scanDown_None h ms (length ms)).
    + apply isUserAt_out_of_range. lia.
  - intros Hall. destruct (scanDown h ms (length ms)) as [i|] eqn:Hs; [|done].
    apply scanDown_Some in Hs as (_ & Hu & _). by rewrite Hall in Hu.
Qed.

Lemma rewriteTarget_index template tpl h ms i m s :
  rewriteTarget template tpl h ms = Some (i, m, s) ->
  lastUserIndex h ms = Some i.
Proof.
  unfold rewriteTarget.
  destruct (template tpl interpolate) as [compiler|]; simpl; [|done].
  destruct (lastUserIndex h ms) as [i'|]; simpl; [|done].
  destruct (ms !! i') as [l|]; simpl; [|done].
  destruct (messageAt h l) as [m'|]; simpl; [|done].
  destruct (content m') as [s0|]; [|done].
  destruct (compiler [("text", s0)]) as [s'|]; simpl; [|done].
  destruct (String.eqb s' s0); [done|]. by intros [= -> _ _].
Qed.

Lemma rewriteTarget_no_user template tpl h ms :
  lastUserIndex h ms = None -> rewriteTarget template tpl h ms = None.
Proof.
  intros Hn. unfold rewriteTarget.
  destruct (template tpl interpolate); simpl; [|done]. by rewrite Hn.
Qed.

Lemma finalMessages_length template config h ms :
  length (finalMessages template config h ms) = length ms.
Proof.
  unfold finalMessages. destruct (enabledTemplate config) as [tpl|]; [|done].
  destruct (rewriteTarget template tpl h ms) as [[[i m] s]|]; [|done].
  apply length_insert.
Qed.

Lemma finalMessages_other template config h ms j :
  lastUserIndex h ms <> Some j ->
  finalMessages template config h ms !! j = ms !! j.
Proof.
  intros Hj. unfold finalMessages. destruct (enabledTemplate config) as [tpl|]; [|done].
  destruct (rewriteTarget template tpl h ms) as [[[i m] s]|] eqn:Ht; [|done].
  apply rewriteTarget_index in Ht. apply list_lookup_insert_ne. congruence.
Qed.

Lemma recordedCount_finalHeap template config h ms kv :
  recordedCount (finalHeap template config h ms kv) (length h + 2) =
  match enabledTemplate config with
  | None => kv !! inputTemplateProcessed
  | Some tpl => Some (VNumber (countOf (rewriteTarget template tpl h ms)))
  end.
Proof.
  unfold recordedCount. rewrite metadataOf_finalHeap. simpl.
  unfold finalMetadata. destruct (enabledTemplate config) as [tpl|].
  - rewrite lookup_insert_ne by done. by rewrite lookup_insert_eq.
  - by rewrite lookup_insert_ne.
Qed.

Lemma executedMark_finalHeap template config h ms kv :
  executedMark (finalHeap template config h ms kv) (length h + 2) = Some (VBool true).
Proof.
  unfold executedMark. rewrite metadataOf_finalHeap. simpl.
  unfold finalMetadata. destruct (enabledTemplate config); by rewrite lookup_insert_eq.
Qed.

(** * The claims *)

(** C2 (single-target scope and target selection).  The processor returns,
    and the message array of the returned context has the length of the
    input array.  A slot that differs from the input slot is the slot
    [lastUserIndex], which is the largest index holding a message of role
    [user]; every other slot holds the very same reference, and every
    object of the input store, so every input message, is left as it was.
    If no slot holds a user message, the array is the input array and a
    configured template records the count 0. *)
Theorem C2_single_target_scope template config h context ms kv :
  messagesOf h context = Some ms ->
  metadataOf h context = Some kv ->
  exists context' h' ms',
    doProcess template config context h = Some (context', h') /\
    messagesOf h' context' = Some ms' /\
    length ms' = length ms /\
    (forall j, ms' !! j <> ms !! j -> lastUserIndex h ms = Some j) /\
    (forall j, lastUserIndex h ms <> Some j -> ms' !! j = ms !! j) /\
    (forall i, lastUserIndex h ms = Some i <->
       isUserAt h ms i = true /\ forall j, i < j -> isUserAt h ms j = false) /\
    (forall l, l < length h -> h' !! l = h !! l) /\
    (lastUserIndex h ms = None ->
       ms' = ms /\
       forall tpl, enabledTemplate config = Some tpl ->
                   recordedCount h' context' = Some (VNumber 0)).
Proof.
  intros Hms Hkv.
  exists (length h + 2), (finalHeap template config h ms kv),
         (finalMessages template config h ms).
  split; [by apply doProcess_spec|].
  split; [apply messagesOf_finalHeap|].
  split; [apply finalMessages_length|].
  split.
  { intros j Hj. destruct (decide (lastUserIndex h ms = Some j)) as [|Hne]; [done|].
    destruct Hj. by apply finalMessages_other. }
  split; [intros j; apply finalMessages_other|].
  split; [apply lastUserIndex_iff|].
  split; [intros l; apply finalHeap_old|].
  intros Hnone. split.
  - unfold finalMessages. destruct (enabledTemplate config) as [tpl|]; [|done].
    by rewrite rewriteTarget_no_user.
  - intros tpl He. rewrite recordedCount_finalHeap, He.
    by rewrite rewriteTarget_no_user.
Qed.

Lemma C2_single_target_scope_witness :
  exists context' h' ms',
    doProcess specTemplate {| inputTemplate := Some "Context: {{text}}" |}
              sampleContext (sampleHeap (StringContent "hi")) = Some (context', h') /\
    messagesOf h' context' = Some ms' /\
    length ms' = 3 /\
    (forall j, ms' !! j <> [0; 1; 2] !! j ->
               lastUserIndex (sampleHeap (StringContent "hi")) [0; 1; 2] = Some j) /\
    (forall j, lastUserIndex (sampleHeap (StringContent "hi")) [0; 1; 2] <> Some j ->
               ms' !! j = [0; 1; 2] !! j) /\
    (forall i, lastUserIndex (sampleHeap (StringContent "hi")) [0; 1; 2] = Some i <->
       isUserAt (sampleHeap (StringContent "hi")) [0; 1; 2] i = true /\
       forall j, i < j -> isUserAt (sampleHeap (StringContent "hi")) [0; 1; 2] j = false) /\
    (forall l, l < 6 -> h' !! l = sampleHeap (StringContent "hi") !! l) /\
    (lastUserIndex (sampleHeap (StringContent "hi")) [0; 1; 2] = None ->
       ms' = [0; 1; 2] /\
       forall tpl, enabledTemplate {| inputTemplate := Some "Context: {{text}}" |} = Some tpl ->
                   recordedCount h' context' = Some (VNumber 0)).
Proof.
  apply (C2_single_target_scope specTemplate
           {| inputTemplate := Some "Context: {{text}}" |}
           (sampleHeap (StringContent "hi")) sampleContext [0; 1; 2] sampleMetadata);
    reflexivity.
Defined.

(** C3 (failure containment).  With a template configured, let the engine
    throw at compile time, or let the compiled function throw on the
    content of the selected message.  The processor still returns; the
    message array of the returned context is the input array, no object of
    the input store is changed, the recorded count is 0 and the context
    carries the execution marker. *)
Theorem C3_failure_containment template config tpl h context ms kv :
  messagesOf h context = Some ms ->
  metadataOf h context = Some kv ->
  enabledTemplate config = Some tpl ->
  (template tpl interpolate = None \/
   exists compiler i l m s,
     template tpl interpolate = Some compiler /\
     lastUserIndex h ms = Some i /\ ms !! i = Some l /\
     messageAt h l = Some m /\ content m = StringContent s /\
     compiler [("text", s)] = None) ->
  exists context' h',
    doProcess template config context h = Some (context', h') /\
    messagesOf h' context' = Some ms /\
    (forall l, l < length h -> h' !! l = h !! l) /\
    contentsOf h' context' = contentsOf h context /\
    recordedCount h' context' = Some (VNumber 0) /\
    executedMark h' context' = Some (VBool true).
Proof.
  intros Hms Hkv He Hthrow.
  assert (rewriteTarget template tpl h ms = None) as Hnone.
  { unfold rewriteTarget.
    destruct Hthrow as [->|(compiler & i & l & m & s & -> & -> & Hl & Hm & Hc & Hs)];
      [done|].
    simpl. rewrite Hl. simpl. rewrite Hm. simpl. rewrite Hc, Hs. done. }
  assert (messagesOf (finalHeap template config h ms kv) (length h + 2) = Some ms)
    as Hms'.
  { rewrite messagesOf_finalHeap. unfold finalMessages. by rewrite He, Hnone. }
  exists (length h + 2), (finalHeap template config h ms kv).
  split; [by apply doProcess_spec|].
  split; [done|].
  split; [intros l; apply finalHeap_old|].
  split.
  { unfold contentsOf. rewrite Hms', Hms. f_equal. apply map_ext_in.
    intros l Hl. f_equal.
    destruct (decide (l < length h)) as [Hlt|Hge];
      [by apply messageAt_finalHeap_old|].
    destruct (messageAt (finalHeap template config h ms kv) l) as [m|] eqn:Hm.
    - apply messageAt_finalHeap in Hm as [[? ?]|(tpl' & i & m0 & s & He' & Ht & _)];
        [done|].
      congruence.
    - unfold messageAt. by rewrite lookup_ge_None_2 by lia. }
  split; [|apply executedMark_finalHeap].
  by rewrite recordedCount_finalHeap, He, Hnone.
Qed.

Lemma C3_failure_containment_witness :
  (exists context' h',
     doProcess compileThrows {| inputTemplate := Some "{{ text" |}
               sampleContext (sampleHeap (StringContent "hi")) = Some (context', h') /\
     messagesOf h' context' = Some [0; 1; 2] /\
     (forall l, l < 6 -> h' !! l = sampleHeap (StringContent "hi") !! l) /\
     contentsOf h' context' = contentsOf (sampleHeap (StringContent "hi")) sampleContext /\
     recordedCount h' context' = Some (VNumber 0) /\
     executedMark h' context' = Some (VBool true)) /\
  (exists context' h',
     doProcess applyThrows {| inputTemplate := Some "Context: {{text}}" |}
               sampleContext (sampleHeap (StringContent "hi")) = Some (context', h') /\
     messagesOf h' context' = Some [0; 1; 2] /\
     (forall l, l < 6 -> h' !! l = sampleHeap (StringContent "hi") !! l) /\
     contentsOf h' context' = contentsOf (sampleHeap (StringContent "hi")) sampleContext /\
     recordedCount h' context' = Some (VNumber 0) /\
     executedMark h' context' = Some (VBool true)).
Proof.
  split.
  - apply (C3_failure_containment compileThrows {| inputTemplate := Some "{{ text" |}
             "{{ text" (sampleHeap (StringContent "hi")) sampleContext
             [0; 1; 2] sampleMetadata); try reflexivity.
    left. reflexivity.
  - apply (C3_failure_containment applyThrows
             {| inputTemplate := Some "Context: {{text}}" |}
             "Context: {{text}}" (sampleHeap (StringContent "hi")) sampleContext
             [0; 1; 2] sampleMetadata); try reflexivity.
    right.
    exists (fun _ => None), 2, 2,
      (mkMessage "m3" "user" (StringContent "hi") [("createdAt", VNumber 17)]), "hi".
    repeat split; reflexivity.
Defined.

(** C5 (original-context immutability).  The processor returns a context
    that was not in the input store, and every object of the input store
    is left as it was: the caller's context still has the same message
    array, the same metadata and the same message contents. *)
Theorem C5_original_context_immutable template config h context ms kv :
  messagesOf h context = Some ms ->
  metadataOf h context = Some kv ->
  exists context' h',
    doProcess template config context h = Some (context', h') /\
    (forall l, l < length h -> h' !! l = h !! l) /\
    length h <= context' /\ context < length h /\
    messagesOf h' context = Some ms /\
    metadataOf h' context = Some kv /\
    (forall l m, messageAt h l = Some m -> messageAt h' l = Some m).
Proof.
  intros Hms Hkv.
  destruct (messagesOf_Some _ _ _ Hms) as (c & Hc & Ha).
  destruct (metadataOf_Some _ _ _ Hkv) as (c' & Hc' & Hr).
  assert (c' = c) as -> by congruence.
  pose proof (lookup_lt_Some _ _ _ Hc) as Hlc.
  pose proof (lookup_lt_Some _ _ _ Ha) as Hla.
  pose proof (lookup_lt_Some _ _ _ Hr) as Hlr.
  exists (length h + 2), (finalHeap template config h ms kv).
  split; [by apply doProcess_spec|].
  split; [intros l; apply finalHeap_old|].
  split; [lia|]. split; [done|].
  split.
  { unfold messagesOf, contextAt, arrayAt.
    rewrite finalHeap_old by done. rewrite Hc.
    rewrite finalHeap_old by done. by rewrite Ha. }
  split.
  { unfold metadataOf, contextAt, recordAt.
    rewrite finalHeap_old by done. rewrite Hc.
    rewrite finalHeap_old by done. by rewrite Hr. }
  intros l m Hm. rewrite messageAt_finalHeap_old; [done|].
  apply messageAt_Some in Hm. by apply lookup_lt_Some in Hm.
Qed.

Lemma C5_original_context_immutable_witness :
  exists context' h',
    doProcess specTemplate {| inputTemplate := Some "Context: {{text}}" |}
              sampleContext (sampleHeap (StringContent "hi")) = Some (context', h') /\
    (forall l, l < 6 -> h' !! l = sampleHeap (StringContent "hi") !! l) /\
    6 <= context' /\ sampleContext < 6 /\
    messagesOf h' sampleContext = Some [0; 1; 2] /\
    metadataOf h' sampleContext = Some sampleMetadata /\
    (forall l m, messageAt (sampleHeap (StringContent "hi")) l = Some m ->
                 messageAt h' l = Some m).
Proof.
  apply (C5_original_context_immutable specTemplate
           {| inputTemplate := Some "Context: {{text}}" |}
           (sampleHeap (StringContent "hi")) sampleContext [0; 1; 2] sampleMetadata);
    reflexivity.
Defined.

(** C8 (non-text safety).  With a template configured, if the content of
    the selected message is not a string, the processor returns, the
    message array of the returned context is the input array, no object of
    the input store is changed and the recorded count is 0, whatever the
    engine does. *)
Theorem C8_non_text_safety template config tpl h context ms kv i l m parts :
  messagesOf h context = Some ms ->
  metadataOf h context = Some kv ->
  enabledTemplate config = Some tpl ->
  lastUserIndex h ms = Some i ->
  ms !! i = Some l ->
  messageAt h l = Some m ->
  content m = PartsContent parts ->
  exists context' h',
    doProcess template config context h = Some (context', h') /\
    messagesOf h' context' = Some ms /\
    (forall l', l' < length h -> h' !! l' = h !! l') /\
    messageAt h' l = Some m /\
    recordedCount h' context' = Some (VNumber 0).
Proof.
  intros Hms Hkv He Hi Hl Hm Hc.
  assert (rewriteTarget template tpl h ms = None) as Hnone.
  { unfold rewriteTarget. destruct (template tpl interpolate); simpl; [|done].
    rewrite Hi. simpl. rewrite Hl. simpl. rewrite Hm. simpl. by rewrite Hc. }
  exists (length h + 2), (finalHeap template config h ms kv).
  split; [by apply doProcess_spec|].
  split. { rewrite messagesOf_finalHeap. unfold finalMessages. by rewrite He, Hnone. }
  split; [intros l'; apply finalHeap_old|].
  split.
  { rewrite messageAt_finalHeap_old; [done|].
    apply messageAt_Some in Hm. by apply lookup_lt_Some in Hm. }
  by rewrite recordedCount_finalHeap, He, Hnone.
Qed.

Lemma C8_non_text_safety_witness :
  exists context' h',
    doProcess specTemplate {| inputTemplate := Some "Context: {{text}}" |} sampleContext
      (sampleHeap (PartsContent [TextPart "look"; ImagePart "http://x/y.png"])) =
    Some (context', h') /\
    messagesOf h' context' = Some [0; 1; 2] /\
    (forall l', l' < 6 ->
       h' !! l' =
       sampleHeap (PartsContent [TextPart "look"; ImagePart "http://x/y.png"]) !! l') /\
    messageAt h' 2 =
    Some (mkMessage "m3" "user"
            (PartsContent [TextPart "look"; ImagePart "http://x/y.png"])
            [("createdAt", VNumber 17)]) /\
    recordedCount h' context' = Some (VNumber 0).
Proof.
  apply (C8_non_text_safety specTemplate
           {| inputTemplate := Some "Context: {{text}}" |} "Context: {{text}}"
           (sampleHeap (PartsContent [TextPart "look"; ImagePart "http://x/y.png"]))
           sampleContext [0; 1; 2] sampleMetadata 2 2
           (mkMessage "m3" "user"
              (PartsContent [TextPart "look"; ImagePart "http://x/y.png"])
              [("createdAt", VNumber 17)])
           [TextPart "look"; ImagePart "http://x/y.png"]);
    reflexivity.
Defined.

(** The guard of [doProcess]: without a template to work on, the processor
    is [cloneContext] followed at once by [markAsExecuted]. *)
Lemma doProcess_disabled template config context h :
  enabledTemplate config = None ->
  doProcess template config context h =
  (let* clonedContext := cloneContext context in
   markAsExecuted name clonedContext) h.
Proof.
  unfold enabledTemplate, doProcess. by destruct (inputTemplate config) as [[|a s]|].
Qed.

Lemma finalHeap_disabled template config h ms kv :
  enabledTemplate config = None ->
  messagesOf (finalHeap template config h ms kv) (length h + 2) = Some ms /\
  metadataOf (finalHeap template config h ms kv) (length h + 2) =
    Some (<[executedKey name := VBool true]> kv) /\
  recordedCount (finalHeap template config h ms kv) (length h + 2) =
    kv !! inputTemplateProcessed.
Proof.
  intros He. split; [|split].
  - rewrite messagesOf_finalHeap. unfold finalMessages. by rewrite He.
  - rewrite metadataOf_finalHeap. unfold finalMetadata. by rewrite He.
  - by rewrite recordedCount_finalHeap, He.
Qed.

(** C4, as stated, fails: with no template configured the returned
    metadata of the sample conversation holds no processed-count at all,
    so it does not hold a processed-count of 0. *)
Lemma C4_counterexample :
  inputTemplate {| inputTemplate := None |} = None /\
  ~ (exists context' h',
       doProcess specTemplate {| inputTemplate := None |}
                 sampleContext (sampleHeap (StringContent "hi")) = Some (context', h') /\
       messagesOf h' context' = Some [0; 1; 2] /\
       recordedCount h' context' = Some (VNumber 0)).
Proof.
  split; [reflexivity|].
  intros (context' & h' & Hrun & _ & Hcount).
  rewrite (doProcess_spec _ _ _ _ [0; 1; 2] sampleMetadata) in Hrun by reflexivity.
  injection Hrun as <- <-.
  rewrite recordedCount_finalHeap in Hcount. simpl in Hcount.
  unfold sampleMetadata in Hcount. by rewrite lookup_singleton_ne in Hcount.
Qed.

(** C4 (disabled no-op), amended.  When no template is configured the
    processor returns, the message array of the returned context is the
    input array and no object of the input store is changed; the early
    exit writes no processed-count: the returned metadata is the input
    metadata with the execution marker added, and the count key reads
    what it read in the input metadata. *)
Theorem C4_disabled_noop template config h context ms kv :
  messagesOf h context = Some ms ->
  metadataOf h context = Some kv ->
  inputTemplate config = None ->
  exists context' h',
    doProcess template config context h = Some (context', h') /\
    messagesOf h' context' = Some ms /\
    (forall l, l < length h -> h' !! l = h !! l) /\
    metadataOf h' context' = Some (<[executedKey name := VBool true]> kv) /\
    recordedCount h' context' = kv !! inputTemplateProcessed.
Proof.
  intros Hms Hkv Hnone.
  assert (enabledTemplate config = None) as He
    by (unfold enabledTemplate; by rewrite Hnone).
  destruct (finalHeap_disabled template config h ms kv He) as (H1 & H2 & H3).
  exists (length h + 2), (finalHeap template config h ms kv).
  split; [by apply doProcess_spec|].
  split; [done|]. split; [intros l; apply finalHeap_old|]. done.
Qed.

Lemma C4_disabled_noop_witness :
  exists context' h',
    doProcess specTemplate {| inputTemplate := None |}
              sampleContext (sampleHeap (StringContent "hi")) = Some (context', h') /\
    messagesOf h' context' = Some [0; 1; 2] /\
    (forall l, l < 6 -> h' !! l = sampleHeap (StringContent "hi") !! l) /\
    metadataOf h' context' = Some (<[executedKey name := VBool true]> sampleMetadata) /\
    recordedCount h' context' = sampleMetadata !! inputTemplateProcessed.
Proof.
  apply (C4_disabled_noop specTemplate {| inputTemplate := None |}
           (sampleHeap (StringContent "hi")) sampleContext [0; 1; 2] sampleMetadata);
    reflexivity.
Defined.

(** C9, as stated, fails: on the disabled path the returned metadata of the
    conversation without a user message gains no numeric processed-count,
    neither 0 nor 1. *)
Lemma C9_counterexample :
  ~ (exists context' h' n,
       doProcess specTemplate {| inputTemplate := None |} noUserContext noUserHeap =
       Some (context', h') /\
       recordedCount h' context' = Some (VNumber n) /\ (n = 0 \/ n = 1)%Z).
Proof.
  intros (context' & h' & n & Hrun & Hcount & _).
  rewrite (doProcess_spec _ _ _ _ [0; 1] sampleMetadata) in Hrun by reflexivity.
  injection Hrun as <- <-.
  rewrite recordedCount_finalHeap in Hcount. simpl in Hcount.
  unfold sampleMetadata in Hcount. by rewrite lookup_singleton_ne in Hcount.
Qed.

(** C9 (execution marking and metadata), amended.  On every path the
    result of the processor is the result of [markAsExecuted], applied
    last to the working copy.  When a non-empty template is configured,
    the metadata of the working copy is by then the input metadata with
    the processed-count, 0 or 1, written under the stage's key; on the
    disabled path it is the input metadata itself.  The returned metadata
    adds the execution marker, and every other key reads as in the
    input. *)
Theorem C9_execution_marking template config h context ms kv :
  messagesOf h context = Some ms ->
  metadataOf h context = Some kv ->
  exists clonedContext h1 kv1 context' h' kv',
    doProcess template config context h = markAsExecuted name clonedContext h1 /\
    metadataOf h1 clonedContext = Some kv1 /\
    match enabledTemplate config with
    | Some _ =>
        exists n, (n = 0 \/ n = 1)%Z /\
                  kv1 = <[inputTemplateProcessed := VNumber n]> kv
    | None => kv1 = kv
    end /\
    markAsExecuted name clonedContext h1 = Some (context', h') /\
    context' = clonedContext /\
    metadataOf h' context' = Some kv' /\
    kv' = <[executedKey name := VBool true]> kv1 /\
    (forall k, k <> inputTemplateProcessed -> k <> executedKey name ->
               kv' !! k = kv !! k).
Proof.
  intros Hms Hkv.
  pose (t := match enabledTemplate config with
             | None => None
             | Some tpl => rewriteTarget template tpl h ms
             end).
  pose (kv1 := match enabledTemplate config with
               | None => kv
               | Some _ => <[inputTemplateProcessed := VNumber (countOf t)]> kv
               end).
  pose (c := {| messages := length h; metadata := S (length h) |}).
  pose (h1 := <[S (length h) := ObjRecord kv1]> (appliedHeap h ms kv t)).
  assert (h1 !! (length h + 2) = Some (ObjContext c)) as Hc1.
  { unfold h1. rewrite list_lookup_insert_ne by lia. apply lookup_appliedHeap_context. }
  assert (h1 !! S (length h) = Some (ObjRecord kv1)) as Hr1.
  { unfold h1. apply list_lookup_insert_eq. rewrite length_appliedHeap. lia. }
  exists (length h + 2), h1, kv1, (length h + 2),
         (finalHeap template config h ms kv), (finalMetadata template config h ms kv).
  assert (finalMetadata template config h ms kv = <[executedKey name := VBool true]> kv1)
    as Hfinal.
  { unfold finalMetadata, kv1, t. by destruct (enabledTemplate config). }
  assert (markAsExecuted name (length h + 2) h1 =
          Some (length h + 2, finalHeap template config h ms kv)) as Hmark.
  { rewrite (markAsExecuted_spec _ _ c kv1 name Hc1 Hr1).
    unfold h1, finalHeap. fold t. simpl metadata.
    rewrite list_insert_insert_eq. by rewrite Hfinal. }
  split. { rewrite Hmark. by apply doProcess_spec. }
  split. { unfold metadataOf, contextAt, recordAt. rewrite Hc1. simpl. by rewrite Hr1. }
  split.
  { unfold kv1. destruct (enabledTemplate config) as [tpl|]; [|done].
    exists (countOf t). split; [|done].
    unfold countOf. destruct t; [by right|by left]. }
  split; [done|]. split; [done|].
  split; [apply metadataOf_finalHeap|].
  split; [done|].
  intros k Hk1 Hk2. rewrite Hfinal. rewrite lookup_insert_ne by done.
  unfold kv1. destruct (enabledTemplate config); [|done].
  by rewrite lookup_insert_ne.
Qed.

Lemma C9_execution_marking_witness :
  exists clonedContext h1 kv1 context' h' kv',
    doProcess specTemplate {| inputTemplate := Some "Context: {{text}}" |}
              sampleContext (sampleHeap (StringContent "hi")) =
    markAsExecuted name clonedContext h1 /\
    metadataOf h1 clonedContext = Some kv1 /\
    (exists n, (n = 0 \/ n = 1)%Z /\
               kv1 = <[inputTemplateProcessed := VNumber n]> sampleMetadata) /\
    markAsExecuted name clonedContext h1 = Some (context', h') /\
    context' = clonedContext /\
    metadataOf h' context' = Some kv' /\
    kv' = <[executedKey name := VBool true]> kv1 /\
    (forall k, k <> inputTemplateProcessed -> k <> executedKey name ->
               kv' !! k = sampleMetadata !! k).
Proof.
  apply (C9_execution_marking specTemplate
           {| inputTemplate := Some "Context: {{text}}" |}
           (sampleHeap (StringContent "hi")) sampleContext [0; 1; 2] sampleMetadata);
    reflexivity.
Defined.

(** C10 (the empty template is the disabled state).  With the template
    [""] the processor does what it does without a template, which is
    [cloneContext] followed by [markAsExecuted] and so does not depend on
    the engine: nothing is compiled.  It returns; the message array of the
    returned context is the input array, no object of the input store is
    changed, and the processed-count key is not written: the returned
    metadata is the input metadata with the execution marker added. *)
Theorem C10_empty_template_disabled template h context ms kv :
  messagesOf h context = Some ms ->
  metadataOf h context = Some kv ->
  doProcess template {| inputTemplate := Some "" |} context h =
    doProcess template {| inputTemplate := None |} context h /\
  doProcess template {| inputTemplate := Some "" |} context h =
    (let* clonedContext := cloneContext context in
     markAsExecuted name clonedContext) h /\
  (forall other : Engine,
     doProcess other {| inputTemplate := Some "" |} context h =
     doProcess template {| inputTemplate := Some "" |} context h) /\
  exists context' h',
    doProcess template {| inputTemplate := Some "" |} context h = Some (context', h') /\
    messagesOf h' context' = Some ms /\
    (forall l, l < length h -> h' !! l = h !! l) /\
    (forall l m, messageAt h' l = Some m -> messageAt h l = Some m) /\
    metadataOf h' context' = Some (<[executedKey name := VBool true]> kv) /\
    recordedCount h' context' = kv !! inputTemplateProcessed.
Proof.
  intros Hms Hkv.
  split; [reflexivity|]. split; [reflexivity|]. split; [reflexivity|].
  pose (config := {| inputTemplate := Some "" |}).
  assert (enabledTemplate config = None) as He by reflexivity.
  destruct (finalHeap_disabled template config h ms kv He) as (H1 & H2 & H3).
  exists (length h + 2), (finalHeap template config h ms kv).
  split; [by apply doProcess_spec|].
  split; [done|]. split; [intros l; apply finalHeap_old|].
  split; [|done].
  intros l m Hm.
  apply messageAt_finalHeap in Hm as [[_ Hm]|(tpl & i & m0 & s & He' & _)]; [done|].
  by rewrite He in He'.
Qed.

Lemma C10_empty_template_disabled_witness :
  doProcess applyThrows {| inputTemplate := Some "" |} sampleContext
            (sampleHeap (StringContent "hi")) =
    doProcess applyThrows {| inputTemplate := None |} sampleContext
              (sampleHeap (StringContent "hi")) /\
  doProcess applyThrows {| inputTemplate := Some "" |} sampleContext
            (sampleHeap (StringContent "hi")) =
    (let* clonedContext := cloneContext sampleContext in
     markAsExecuted name clonedContext) (sampleHeap (StringContent "hi")) /\
  (forall other : Engine,
     doProcess other {| inputTemplate := Some "" |} sampleContext
               (sampleHeap (StringContent "hi")) =
     doProcess applyThrows {| inputTemplate := Some "" |} sampleContext
               (sampleHeap (StringContent "hi"))) /\
  exists context' h',
    doProcess applyThrows {| inputTemplate := Some "" |} sampleContext
              (sampleHeap (StringContent "hi")) = Some (context', h') /\
    messagesOf h' context' = Some [0; 1; 2] /\
    (forall l, l < 6 -> h' !! l = sampleHeap (StringContent "hi") !! l) /\
    (forall l m, messageAt h' l = Some m ->
                 messageAt (sampleHeap (StringContent "hi")) l = Some m) /\
    metadataOf h' context' = Some (<[executedKey name := VBool true]> sampleMetadata) /\
    recordedCount h' context' = sampleMetadata !! inputTemplateProcessed.
Proof.
  apply (C10_empty_template_disabled applyThrows
           (sampleHeap (StringContent "hi")) sampleContext [0; 1; 2] sampleMetadata);
    reflexivity.
Defined.

(** ** When the [try] block rewrites *)

Lemma rewriteTarget_Some template tpl compiler h ms i l m s s' :
  template tpl interpolate = Some compiler ->
  lastUserIndex h ms = Some i ->
  ms !! i = Some l ->
  messageAt h l = Some m ->
  content m = StringContent s ->
  compiler [("text", s)] = Some s' ->
  rewriteTarget template tpl h ms = if String.eqb s' s then None else Some (i, m, s').
Proof.
  intros Ht Hi Hl Hm Hc Hs. unfold rewriteTarget.
  rewrite Ht. simpl. rewrite Hi. simpl. rewrite Hl. simpl. rewrite Hm. simpl.
  rewrite Hc, Hs. done.
Qed.

Lemma rewriteTarget_inv template tpl h ms i m s' :
  rewriteTarget template tpl h ms = Some (i, m, s') ->
  exists compiler l s,
    template tpl interpolate = Some compiler /\
    lastUserIndex h ms = Some i /\ ms !! i = Some l /\
    messageAt h l = Some m /\ content m = StringContent s /\
    compiler [("text", s)] = Some s' /\ s' <> s.
Proof.
  unfold rewriteTarget.
  destruct (template tpl interpolate) as [compiler|]; simpl; [|done].
  destruct (lastUserIndex h ms) as [i'|]; simpl; [|done].
  destruct (ms !! i') as [l|] eqn:Hl; simpl; [|done].
  destruct (messageAt h l) as [m'|] eqn:Hm; simpl; [|done].
  destruct (content m') as [s0|] eqn:Hc; [|done].
  destruct (compiler [("text", s0)]) as [s1|] eqn:Hs; simpl; [|done].
  destruct (String.eqb s1 s0) eqn:He; [done|].
  intros [= <- <- <-]. exists compiler, l, s0.
  apply String.eqb_neq in He. auto 10.
Qed.

Lemma allMessages_lookup h ms j l :
  allMessages h ms = true -> ms !! j = Some l -> l < length h.
Proof.
  unfold allMessages. rewrite forallb_forall. intros Hall Hj.
  assert (In l ms) as Hin by (apply list_elem_of_In; by eapply list_elem_of_lookup_2).
  specialize (Hall l Hin). unfold messageAt in Hall.
  destruct (h !! l) as [o|] eqn:Ho; [|done]. by apply lookup_lt_Some in Ho.
Qed.

(** On a well-typed array the roles read after the run are the roles read
    before it: the rewrite keeps the role of the message it replaces. *)
Lemma isUserAt_finalHeap template config h ms kv j :
  allMessages h ms = true ->
  isUserAt (finalHeap template config h ms kv) (finalMessages template config h ms) j =
  isUserAt h ms j.
Proof.
  intros Hwf.
  assert (forall l, ms !! j = Some l ->
            messageAt (finalHeap template config h ms kv) l = messageAt h l) as Hold.
  { intros l Hl. apply messageAt_finalHeap_old. by eapply allMessages_lookup. }
  unfold isUserAt at 1, finalMessages.
  destruct (enabledTemplate config) as [tpl|] eqn:He.
  - destruct (rewriteTarget template tpl h ms) as [[[i m] s']|] eqn:Ht.
    + destruct (rewriteTarget_inv _ _ _ _ _ _ _ Ht)
        as (compiler & l & s & _ & Hi & Hl & Hm & _).
      destruct (decide (i = j)) as [<-|Hne].
      * rewrite list_lookup_insert_eq by (by eapply lookup_lt_Some).
        rewrite (messageAt_finalHeap_new _ _ _ _ _ tpl i m s' He Ht). simpl.
        unfold isUserAt. by rewrite Hl, Hm.
      * rewrite list_lookup_insert_ne by done. unfold isUserAt.
        destruct (ms !! j) as [l'|] eqn:Hj; [|done]. by rewrite Hold.
    + unfold isUserAt. destruct (ms !! j) as [l'|] eqn:Hj; [|done]. by rewrite Hold.
  - unfold isUserAt. destruct (ms !! j) as [l'|] eqn:Hj; [|done]. by rewrite Hold.
Qed.

Lemma scanDown_ext h ms h' ms' n :
  (forall j, isUserAt h' ms' j = isUserAt h ms j) ->
  scanDown h' ms' n = scanDown h ms n.
Proof.
  intros Hext. induction n as [|n IH]; simpl; [done|]. by rewrite Hext, IH.
Qed.

Lemma lastUserIndex_finalHeap template config h ms kv :
  allMessages h ms = true ->
  lastUserIndex (finalHeap template config h ms kv) (finalMessages template config h ms) =
  lastUserIndex h ms.
Proof.
  intros Hwf. unfold lastUserIndex. rewrite finalMessages_length.
  apply scanDown_ext. intros j. by apply isUserAt_finalHeap.
Qed.

(** The general form of C1: a rendering that differs from the content
    replaces the slot by a fresh message that is the old one with the new
    content, and the count is 1. *)
Lemma doProcess_rewrites template config tpl compiler h context ms kv i l m s s' :
  messagesOf h context = Some ms ->
  metadataOf h context = Some kv ->
  enabledTemplate config = Some tpl ->
  template tpl interpolate = Some compiler ->
  lastUserIndex h ms = Some i ->
  ms !! i = Some l ->
  messageAt h l = Some m ->
  content m = StringContent s ->
  compiler [("text", s)] = Some s' ->
  s' <> s ->
  exists context' h' l',
    doProcess template config context h = Some (context', h') /\
    messagesOf h' context' = Some (<[i := l']> ms) /\
    length h <= l' /\
    messageAt h' l' = Some (withContent m s') /\
    messageAt h' l = Some m /\
    (forall l0, l0 < length h -> h' !! l0 = h !! l0) /\
    recordedCount h' context' = Some (VNumber 1).
Proof.
  intros Hms Hkv He Ht Hi Hl Hm Hc Hs Hne.
  assert (rewriteTarget template tpl h ms = Some (i, m, s')) as Htarget.
  { rewrite (rewriteTarget_Some _ _ compiler _ _ i l m s s') by done.
    apply String.eqb_neq in Hne. by rewrite Hne. }
  exists (length h + 2), (finalHeap template config h ms kv), (length h + 3).
  split; [by apply doProcess_spec|].
  split. { rewrite messagesOf_finalHeap. unfold finalMessages. by rewrite He, Htarget. }
  split; [lia|].
  split; [by eapply messageAt_finalHeap_new|].
  split.
  { rewrite messageAt_finalHeap_old; [done|].
    apply messageAt_Some in Hm. by apply lookup_lt_Some in Hm. }
  split; [intros l0; apply finalHeap_old|].
  by rewrite recordedCount_finalHeap, He, Htarget.
Qed.

(** The general form of C6: a rendering equal to the content leaves the
    array and every message object as they are, and the count is 0. *)
Lemma doProcess_identity template config tpl compiler h context ms kv i l m s :
  messagesOf h context = Some ms ->
  metadataOf h context = Some kv ->
  enabledTemplate config = Some tpl ->
  template tpl interpolate = Some compiler ->
  lastUserIndex h ms = Some i ->
  ms !! i = Some l ->
  messageAt h l = Some m ->
  content m = StringContent s ->
  compiler [("text", s)] = Some s ->
  exists context' h',
    doProcess template config context h = Some (context', h') /\
    messagesOf h' context' = Some ms /\
    messageAt h' l = Some m /\
    (forall l0 m0, messageAt h' l0 = Some m0 -> messageAt h l0 = Some m0) /\
    (forall l0, l0 < length h -> h' !! l0 = h !! l0) /\
    recordedCount h' context' = Some (VNumber 0).
Proof.
  intros Hms Hkv He Ht Hi Hl Hm Hc Hs.
  assert (rewriteTarget template tpl h ms = None) as Htarget.
  { rewrite (rewriteTarget_Some _ _ compiler _ _ i l m s s) by done.
    by rewrite String.eqb_refl. }
  exists (length h + 2), (finalHeap template config h ms kv).
  split; [by apply doProcess_spec|].
  split. { rewrite messagesOf_finalHeap. unfold finalMessages. by rewrite He, Htarget. }
  split.
  { rewrite messageAt_finalHeap_old; [done|].
    apply messageAt_Some in Hm. by apply lookup_lt_Some in Hm. }
  split.
  { intros l0 m0 Hm0.
    apply messageAt_finalHeap in Hm0 as [[_ ?]|(tpl' & i' & m' & s' & He' & Ht' & _)];
      [done|].
    congruence. }
  split; [intros l0; apply finalHeap_old|].
  by rewrite recordedCount_finalHeap, He, Htarget.
Qed.

(** After a run, the selected slot holds a message whose content is the
    rendering, at the same index. *)
Lemma doProcess_selected_after template config tpl compiler h ms kv i l m s0 s1 :
  allMessages h ms = true ->
  enabledTemplate config = Some tpl ->
  template tpl interpolate = Some compiler ->
  lastUserIndex h ms = Some i ->
  ms !! i = Some l ->
  messageAt h l = Some m ->
  content m = StringContent s0 ->
  compiler [("text", s0)] = Some s1 ->
  lastUserIndex (finalHeap template config h ms kv) (finalMessages template config h ms)
    = Some i /\
  exists l1 m1,
    finalMessages template config h ms !! i = Some l1 /\
    messageAt (finalHeap template config h ms kv) l1 = Some m1 /\
    content m1 = StringContent s1 /\
    id m1 = id m /\ role m1 = role m /\ others m1 = others m.
Proof.
  intros Hwf He Ht Hi Hl Hm Hc Hs.
  split; [by rewrite lastUserIndex_finalHeap|].
  pose proof (rewriteTarget_Some _ _ _ _ _ _ _ _ _ _ Ht Hi Hl Hm Hc Hs) as Htarget.
  unfold finalMessages. rewrite He, Htarget.
  destruct (String.eqb s1 s0) eqn:Heq.
  - apply String.eqb_eq in Heq as ->. exists l, m.
    split; [done|]. split; [|done].
    rewrite messageAt_finalHeap_old; [done|].
    apply messageAt_Some in Hm. by apply lookup_lt_Some in Hm.
  - exists (length h + 3), (withContent m s1).
    split. { apply list_lookup_insert_eq. by eapply lookup_lt_Some. }
    split; [|done]. by eapply messageAt_finalHeap_new.
Qed.

(** C1 (substitution correctness).  Let the template be configured and let
    the engine compile it.  In general: if the rendering of the content of
    the selected message differs from that content, the processor returns,
    the slot of the returned array holds a message object that was not in
    the input store and equals the original message except for its
    content, which is the rendering; the original message object and all
    other slots are left as they were, and the recorded count is 1.  In
    particular, for the template ["Context: {{text}}"], rendered by the
    engine as ["Context: hi"] on ["hi"], a last user message ["hi"] is
    replaced by one with content exactly ["Context: hi"], with count 1. *)
Theorem C1_substitution_correctness template config tpl compiler :
  enabledTemplate config = Some tpl ->
  template tpl interpolate = Some compiler ->
  (forall h context ms kv i l m s s',
     messagesOf h context = Some ms ->
     metadataOf h context = Some kv ->
     lastUserIndex h ms = Some i ->
     ms !! i = Some l ->
     messageAt h l = Some m ->
     content m = StringContent s ->
     compiler [("text", s)] = Some s' ->
     s' <> s ->
     exists context' h' l' m',
       doProcess template config context h = Some (context', h') /\
       messagesOf h' context' = Some (<[i := l']> ms) /\
       length h <= l' /\
       messageAt h' l' = Some m' /\
       content m' = StringContent s' /\
       id m' = id m /\ role m' = role m /\ others m' = others m /\
       messageAt h' l = Some m /\
       (forall l0, l0 < length h -> h' !! l0 = h !! l0) /\
       recordedCount h' context' = Some (VNumber 1)) /\
  (tpl = "Context: {{text}}" ->
   compiler [("text", "hi")] = Some "Context: hi" ->
   forall h context ms kv i l m,
     messagesOf h context = Some ms ->
     metadataOf h context = Some kv ->
     lastUserIndex h ms = Some i ->
     ms !! i = Some l ->
     messageAt h l = Some m ->
     content m = StringContent "hi" ->
     exists context' h' ms' l' m',
       doProcess template config context h = Some (context', h') /\
       messagesOf h' context' = Some ms' /\
       ms' !! i = Some l' /\
       messageAt h' l' = Some m' /\
       content m' = StringContent "Context: hi" /\
       recordedCount h' context' = Some (VNumber 1)).
Proof.
  intros He Ht.
  assert (forall h context ms kv i l m s s',
     messagesOf h context = Some ms ->
     metadataOf h context = Some kv ->
     lastUserIndex h ms = Some i ->
     ms !! i = Some l ->
     messageAt h l = Some m ->
     content m = StringContent s ->
     compiler [("text", s)] = Some s' ->
     s' <> s ->
     exists context' h' l' m',
       doProcess template config context h = Some (context', h') /\
       messagesOf h' context' = Some (<[i := l']> ms) /\
       length h <= l' /\
       messageAt h' l' = Some m' /\
       content m' = StringContent s' /\
       id m' = id m /\ role m' = role m /\ others m' = others m /\
       messageAt h' l = Some m /\
       (forall l0, l0 < length h -> h' !! l0 = h !! l0) /\
       recordedCount h' context' = Some (VNumber 1)) as Hgeneral.
  { intros h context ms kv i l m s s' Hms Hkv Hi Hl Hm Hc Hs Hne.
    destruct (doProcess_rewrites template config tpl compiler h context ms kv
                i l m s s' Hms Hkv He Ht Hi Hl Hm Hc Hs Hne)
      as (context' & h' & l' & Hrun & Hms' & Hnew & Hm' & Hold & Hframe & Hcount).
    exists context', h', l', (withContent m s'). auto 12. }
  split; [exact Hgeneral|].
  intros -> Hrender h context ms kv i l m Hms Hkv Hi Hl Hm Hc.
  destruct (Hgeneral h context ms kv i l m "hi" "Context: hi"
              Hms Hkv Hi Hl Hm Hc Hrender ltac:(discriminate))
    as (context' & h' & l' & m' & Hrun & Hms' & _ & Hm' & Hc' & _ & _ & _ & _ & _ & Hcount).
  exists context', h', (<[i := l']> ms), l', m'.
  split; [done|]. split; [done|].
  split. { apply list_lookup_insert_eq. by eapply lookup_lt_Some. }
  done.
Qed.

Lemma C1_substitution_correctness_witness :
  exists context' h' ms' l' m',
    doProcess specTemplate {| inputTemplate := Some "Context: {{text}}" |}
              sampleContext (sampleHeap (StringContent "hi")) = Some (context', h') /\
    messagesOf h' context' = Some ms' /\
    ms' !! 2 = Some l' /\
    messageAt h' l' = Some m' /\
    content m' = StringContent "Context: hi" /\
    recordedCount h' context' = Some (VNumber 1).
Proof.
  destruct (C1_substitution_correctness specTemplate
              {| inputTemplate := Some "Context: {{text}}" |}
              "Context: {{text}}"
              (fun b => Some (render interpolate b 0 "Context: {{text}}"))
              eq_refl eq_refl) as [_ Hp5].
  apply (Hp5 eq_refl eq_refl (sampleHeap (StringContent "hi")) sampleContext
             [0; 1; 2] sampleMetadata 2 2
             (mkMessage "m3" "user" (StringContent "hi") [("createdAt", VNumber 17)]));
    reflexivity.
Defined.

(** C6 (identity-preserving no-op and stability).  Let the template be
    configured and let the engine compile it.  If the rendering of the
    content of the selected message is that content, the processor
    returns, the returned array is the input array, so the slot keeps its
    reference, the store holds no message object that the input store did
    not hold, and the recorded count is 0.  Consequently, once the
    rendering is stable (rendering it again gives it back, as for a
    template without placeholder), a second run on the processed context
    returns its message array unchanged, changes no object, creates no
    message and records the count 0. *)
Theorem C6_identity_noop_and_stability template config tpl compiler :
  enabledTemplate config = Some tpl ->
  template tpl interpolate = Some compiler ->
  (forall h context ms kv i l m s,
     messagesOf h context = Some ms ->
     metadataOf h context = Some kv ->
     lastUserIndex h ms = Some i ->
     ms !! i = Some l ->
     messageAt h l = Some m ->
     content m = StringContent s ->
     compiler [("text", s)] = Some s ->
     exists context' h',
       doProcess template config context h = Some (context', h') /\
       messagesOf h' context' = Some ms /\
       messageAt h' l = Some m /\
       (forall l0 m0, messageAt h' l0 = Some m0 -> messageAt h l0 = Some m0) /\
       (forall l0, l0 < length h -> h' !! l0 = h !! l0) /\
       recordedCount h' context' = Some (VNumber 0)) /\
  (forall h context ms kv i l m s0 s1,
     messagesOf h context = Some ms ->
     metadataOf h context = Some kv ->
     allMessages h ms = true ->
     lastUserIndex h ms = Some i ->
     ms !! i = Some l ->
     messageAt h l = Some m ->
     content m = StringContent s0 ->
     compiler [("text", s0)] = Some s1 ->
     compiler [("text", s1)] = Some s1 ->
     exists context1 h1 ms1 l1 m1,
       doProcess template config context h = Some (context1, h1) /\
       messagesOf h1 context1 = Some ms1 /\
       ms1 !! i = Some l1 /\
       messageAt h1 l1 = Some m1 /\
       content m1 = StringContent s1 /\
       recordedCount h1 context1 =
         Some (VNumber (if String.eqb s1 s0 then 0 else 1)) /\
       exists context2 h2,
         doProcess template config context1 h1 = Some (context2, h2) /\
         messagesOf h2 context2 = Some ms1 /\
         messageAt h2 l1 = Some m1 /\
         (forall l0 m0, messageAt h2 l0 = Some m0 -> messageAt h1 l0 = Some m0) /\
         (forall l0, l0 < length h1 -> h2 !! l0 = h1 !! l0) /\
         recordedCount h2 context2 = Some (VNumber 0)).
Proof.
  intros He Ht. split.
  - intros h context ms kv i l m s Hms Hkv Hi Hl Hm Hc Hs.
    by apply (doProcess_identity template config tpl compiler h context ms kv i l m s).
  - intros h context ms kv i l m s0 s1 Hms Hkv Hwf Hi Hl Hm Hc Hs0 Hs1.
    destruct (doProcess_selected_after template config tpl compiler h ms kv
                i l m s0 s1 Hwf He Ht Hi Hl Hm Hc Hs0)
      as (Hi1 & l1 & m1 & Hl1 & Hm1 & Hc1 & _).
    exists (length h + 2), (finalHeap template config h ms kv),
           (finalMessages template config h ms), l1, m1.
    split; [by apply doProcess_spec|].
    split; [apply messagesOf_finalHeap|].
    split; [done|]. split; [done|]. split; [done|].
    split.
    { rewrite recordedCount_finalHeap, He.
      rewrite (rewriteTarget_Some _ _ _ _ _ _ _ _ _ _ Ht Hi Hl Hm Hc Hs0).
      by destruct (String.eqb s1 s0). }
    apply (doProcess_identity template config tpl compiler
             (finalHeap template config h ms kv) (length h + 2)
             (finalMessages template config h ms)
             (finalMetadata template config h ms kv) i l1 m1 s1);
      try done.
    + apply messagesOf_finalHeap.
    + apply metadataOf_finalHeap.
Qed.

Lemma C6_identity_noop_and_stability_witness :
  exists context1 h1 ms1 l1 m1,
    doProcess specTemplate {| inputTemplate := Some "no placeholders here" |}
              sampleContext (sampleHeap (StringContent "hello")) = Some (context1, h1) /\
    messagesOf h1 context1 = Some ms1 /\
    ms1 !! 2 = Some l1 /\
    messageAt h1 l1 = Some m1 /\
    content m1 = StringContent "no placeholders here" /\
    recordedCount h1 context1 = Some (VNumber 1) /\
    exists context2 h2,
      doProcess specTemplate {| inputTemplate := Some "no placeholders here" |}
                context1 h1 = Some (context2, h2) /\
      messagesOf h2 context2 = Some ms1 /\
      messageAt h2 l1 = Some m1 /\
      (forall l0 m0, messageAt h2 l0 = Some m0 -> messageAt h1 l0 = Some m0) /\
      (forall l0, l0 < length h1 -> h2 !! l0 = h1 !! l0) /\
      recordedCount h2 context2 = Some (VNumber 0).
Proof.
  destruct (C6_identity_noop_and_stability specTemplate
              {| inputTemplate := Some "no placeholders here" |}
              "no placeholders here"
              (fun b => Some (render interpolate b 0 "no placeholders here"))
              eq_refl eq_refl) as [_ Hstable].
  apply (Hstable (sampleHeap (StringContent "hello")) sampleContext
                 [0; 1; 2] sampleMetadata 2 2
                 (mkMessage "m3" "user" (StringContent "hello")
                            [("createdAt", VNumber 17)])
                 "hello" "no placeholders here");
    reflexivity.
Defined.

(** * The placeholder grammar *)

Lemma string_length_append (s t : string) :
  String.length (s +:+ t) = String.length s + String.length t.
Proof. induction s as [|c s IH]; simpl; [done|]. by rewrite IH. Qed.

Lemma string_append_assoc (s t u : string) : (s +:+ t) +:+ u = s +:+ t +:+ u.
Proof.
  induction s as [|c s IH]; [done|].
  change (String c ((s +:+ t) +:+ u) = String c (s +:+ t +:+ u)). by f_equal.
Qed.

(** Compute the length of a string built from literals and appends. *)
Ltac string_lengths :=
  repeat first [rewrite string_length_append | progress cbn [String.length]].

Lemma stripPrefix_Some p s r : stripPrefix p s = Some r <-> s = p +:+ r.
Proof.
  revert s. induction p as [|a p IH]; intros s; simpl.
  - split; [by intros [= ->]|by intros ->].
  - destruct s as [|b s]; [done|].
    destruct (Ascii.eqb a b) eqn:Hab.
    + apply Ascii.eqb_eq in Hab as ->. rewrite IH. split; [by intros ->|by intros [= ->]].
    + apply Ascii.eqb_neq in Hab. split; [done|]. intros [= -> _]. done.
Qed.

Lemma skipWhiteSpace_split s :
  exists w, s = w +:+ skipWhiteSpace s /\ allWhiteSpace w = true.
Proof.
  induction s as [|c s (w & Hw & Hall)]; simpl.
  - by exists EmptyString.
  - destruct (isWhiteSpace c) eqn:Hc.
    + exists (String c w). split.
      * change (String c s = String c (w +:+ skipWhiteSpace s)). by f_equal.
      * simpl. by rewrite Hc, Hall.
    + by exists EmptyString.
Qed.

Lemma skipWhiteSpace_app w c r :
  allWhiteSpace w = true -> isWhiteSpace c = false ->
  skipWhiteSpace (w +:+ String c r) = String c r.
Proof.
  intros Hw Hc. induction w as [|a w IH]; simpl in *.
  - by rewrite Hc.
  - apply andb_true_iff in Hw as [-> Hw]. by apply IH.
Qed.

(** The pattern matches at the head of [s] exactly when [s] starts with two
    opening braces, white space, the identifier [text], white space and two
    closing braces; the capture is [text]. *)
Lemma interpolate_iff s g n :
  interpolate s = Some (g, n) <->
  exists w1 w2 rest,
    s = "{{" +:+ w1 +:+ "text" +:+ w2 +:+ "}}" +:+ rest /\
    allWhiteSpace w1 = true /\ allWhiteSpace w2 = true /\
    g = "text" /\ n = 8 + String.length w1 + String.length w2.
Proof.
  unfold interpolate. split.
  - destruct (stripPrefix "{{" s) as [s1|] eqn:H1; cbn [mbind option_bind]; [|done].
    destruct (stripPrefix "text" (skipWhiteSpace s1)) as [s2|] eqn:H2; cbn [mbind option_bind]; [|done].
    destruct (stripPrefix "}}" (skipWhiteSpace s2)) as [s3|] eqn:H3; cbn [mbind option_bind]; [|done].
    intros [= <- <-].
    apply stripPrefix_Some in H1, H2, H3.
    destruct (skipWhiteSpace_split s1) as (w1 & Hs1 & Hw1).
    destruct (skipWhiteSpace_split s2) as (w2 & Hs2 & Hw2).
    rewrite H2 in Hs1. rewrite H3 in Hs2.
    exists w1, w2, s3. subst s s1 s2.
    split; [done|]. split; [done|]. split; [done|]. split; [done|].
    string_lengths. lia.
  - intros (w1 & w2 & rest & -> & Hw1 & Hw2 & -> & ->).
    change (stripPrefix "{{" ("{{" +:+ w1 +:+ "text" +:+ w2 +:+ "}}" +:+ rest))
      with (Some (w1 +:+ "text" +:+ w2 +:+ "}}" +:+ rest)).
    cbn [mbind option_bind].
    change ("text" +:+ w2 +:+ "}}" +:+ rest)
      with (String "t" ("ext" +:+ w2 +:+ "}}" +:+ rest)).
    rewrite (skipWhiteSpace_app w1) by done.
    change (stripPrefix "text" (String "t" ("ext" +:+ w2 +:+ "}}" +:+ rest)))
      with (Some (w2 +:+ "}}" +:+ rest)).
    cbn [mbind option_bind].
    change ("}}" +:+ rest) with (String "}" ("}" +:+ rest)).
    rewrite (skipWhiteSpace_app w2) by done.
    change (stripPrefix "}}" (String "}" ("}" +:+ rest))) with (Some rest).
    cbn [mbind option_bind]. f_equal. f_equal.
    string_lengths. lia.
Qed.

(** ** What the engine returns decides the rewrite *)





(** * Further properties of the processor *)

Lemma messageAt_lt h l m : messageAt h l = Some m -> l < length h.
Proof. intros Hm%messageAt_Some. by apply lookup_lt_Some in Hm. Qed.

Lemma finalMessages_cases template config h ms :
  (finalMessages template config h ms = ms /\
   match enabledTemplate config with
   | Some tpl => rewriteTarget template tpl h ms = None
   | None => True
   end) \/
  (exists tpl i l m s s',
     enabledTemplate config = Some tpl /\
     rewriteTarget template tpl h ms = Some (i, m, s') /\
     lastUserIndex h ms = Some i /\ ms !! i = Some l /\
     messageAt h l = Some m /\ content m = StringContent s /\ s' <> s /\
     finalMessages template config h ms = <[i := length h + 3]> ms).
Proof.
  unfold finalMessages. destruct (enabledTemplate config) as [tpl|]; [|by left].
  destruct (rewriteTarget template tpl h ms) as [[[i m] s']|] eqn:Ht; [|by left].
  right. destruct (rewriteTarget_inv _ _ _ _ _ _ _ Ht)
    as (compiler & l & s & _ & Hi & Hl & Hm & Hc & _ & Hne).
  exists tpl, i, l, m, s, s'. auto 10.
Qed.

(** X1 (the count tells whether the array changed).  With a non-empty
    template configured, the recorded count is 1 exactly when the message
    array of the returned context differs from the input array, and 0
    exactly when it is the input array. *)
Theorem X1_count_matches_change template config tpl h context ms kv :
  messagesOf h context = Some ms ->
  metadataOf h context = Some kv ->
  enabledTemplate config = Some tpl ->
  exists context' h' ms',
    doProcess template config context h = Some (context', h') /\
    messagesOf h' context' = Some ms' /\
    (recordedCount h' context' = Some (VNumber 1) <-> ms' <> ms) /\
    (recordedCount h' context' = Some (VNumber 0) <-> ms' = ms).
Proof.
  intros Hms Hkv He.
  exists (length h + 2), (finalHeap template config h ms kv),
         (finalMessages template config h ms).
  split; [by apply doProcess_spec|]. split; [apply messagesOf_finalHeap|].
  rewrite recordedCount_finalHeap, He.
  destruct (finalMessages_cases template config h ms)
    as [[Hsame Hnone]|(tpl' & i & l & m & s & s' & He' & Ht & Hi & Hl & Hm & _ & _ & Hms')].
  - rewrite He in Hnone. rewrite Hnone, Hsame. simpl. split; split; done.
  - assert (tpl' = tpl) as -> by congruence. rewrite Ht, Hms'. simpl.
    assert (<[i := length h + 3]> ms <> ms) as Hdiff.
    { intros Heq. apply (f_equal (fun x => x !! i)) in Heq.
      rewrite list_lookup_insert_eq in Heq by (by eapply lookup_lt_Some).
      rewrite Hl in Heq. injection Heq as Heq.
      apply messageAt_lt in Hm. lia. }
    split; split; done.
Qed.

Lemma X1_count_matches_change_witness :
  exists context' h' ms',
    doProcess specTemplate {| inputTemplate := Some "Context: {{text}}" |}
              sampleContext (sampleHeap (StringContent "hi")) = Some (context', h') /\
    messagesOf h' context' = Some ms' /\
    (recordedCount h' context' = Some (VNumber 1) <-> ms' <> [0; 1; 2]) /\
    (recordedCount h' context' = Some (VNumber 0) <-> ms' = [0; 1; 2]).
Proof.
  apply (X1_count_matches_change specTemplate
           {| inputTemplate := Some "Context: {{text}}" |} "Context: {{text}}"
           (sampleHeap (StringContent "hi")) sampleContext [0; 1; 2] sampleMetadata);
    reflexivity.
Defined.

(** X2 (only the content can change).  Whatever the template and the
    engine, every slot that held a message still holds a message with the
    same [id], the same [role] and the same other properties, at the same
    position; outside the selected slot it is the same object with the
    same content. *)
Theorem X2_identity_fields_preserved template config h context ms kv :
  messagesOf h context = Some ms ->
  metadataOf h context = Some kv ->
  exists context' h' ms',
    doProcess template config context h = Some (context', h') /\
    messagesOf h' context' = Some ms' /\
    forall j l m,
      ms !! j = Some l -> messageAt h l = Some m ->
      exists l' m',
        ms' !! j = Some l' /\ messageAt h' l' = Some m' /\
        id m' = id m /\ role m' = role m /\ others m' = others m /\
        (lastUserIndex h ms <> Some j -> l' = l /\ m' = m).
Proof.
  intros Hms Hkv.
  exists (length h + 2), (finalHeap template config h ms kv),
         (finalMessages template config h ms).
  split; [by apply doProcess_spec|]. split; [apply messagesOf_finalHeap|].
  intros j l m Hj Hm.
  assert (messageAt (finalHeap template config h ms kv) l = Some m) as Hold.
  { rewrite messageAt_finalHeap_old; [done|]. by eapply messageAt_lt. }
  destruct (finalMessages_cases template config h ms)
    as [[-> _]|(tpl & i & l0 & m0 & s & s' & He & Ht & Hi & Hl & Hm0 & _ & _ & ->)].
  - exists l, m. auto 10.
  - destruct (decide (j = i)) as [->|Hne].
    + assert (l0 = l) as -> by congruence. assert (m0 = m) as -> by congruence.
      exists (length h + 3), (withContent m s').
      split. { apply list_lookup_insert_eq. by eapply lookup_lt_Some. }
      split; [by eapply messageAt_finalHeap_new|].
      split; [done|]. split; [done|]. split; [done|]. by intros [].
    + exists l, m. rewrite list_lookup_insert_ne by done. auto 10.
Qed.

Lemma X2_identity_fields_preserved_witness :
  exists context' h' ms',
    doProcess specTemplate {| inputTemplate := Some "Context: {{text}}" |}
              sampleContext (sampleHeap (StringContent "hi")) = Some (context', h') /\
    messagesOf h' context' = Some ms' /\
    forall j l m,
      [0; 1; 2] !! j = Some l ->
      messageAt (sampleHeap (StringContent "hi")) l = Some m ->
      exists l' m',
        ms' !! j = Some l' /\ messageAt h' l' = Some m' /\
        id m' = id m /\ role m' = role m /\ others m' = others m /\
        (lastUserIndex (sampleHeap (StringContent "hi")) [0; 1; 2] <> Some j ->
         l' = l /\ m' = m).
Proof.
  apply (X2_identity_fields_preserved specTemplate
           {| inputTemplate := Some "Context: {{text}}" |}
           (sampleHeap (StringContent "hi")) sampleContext [0; 1; 2] sampleMetadata);
    reflexivity.
Defined.

Lemma allMessages_finalHeap template config h ms kv :
  allMessages h ms = true ->
  allMessages (finalHeap template config h ms kv) (finalMessages template config h ms)
  = true.
Proof.
  intros Hwf. unfold allMessages. apply forallb_forall. intros l' Hin.
  apply list_elem_of_In, list_elem_of_lookup in Hin as [j Hj].
  assert (forall l, ms !! j = Some l ->
            is_Some (messageAt (finalHeap template config h ms kv) l)) as Hold.
  { intros l Hl. rewrite messageAt_finalHeap_old by (by eapply allMessages_lookup).
    unfold allMessages in Hwf. rewrite forallb_forall in Hwf.
    specialize (Hwf l). destruct (messageAt h l); [by eexists|].
    discriminate Hwf. apply list_elem_of_In. by eapply list_elem_of_lookup_2. }
  destruct (finalMessages_cases template config h ms)
    as [[Hsame _]|(tpl & i & l0 & m0 & s & s' & He & Ht & Hi & Hl & Hm0 & _ & _ & Hms')].
  - rewrite Hsame in Hj. by destruct (Hold l' Hj) as [m ->].
  - rewrite Hms' in Hj. destruct (decide (j = i)) as [->|Hne].
    + rewrite list_lookup_insert_eq in Hj by (by eapply lookup_lt_Some).
      injection Hj as <-. by erewrite messageAt_finalHeap_new.
    + rewrite list_lookup_insert_ne in Hj by done. by destruct (Hold l' Hj) as [m ->].
Qed.

(** X3 (the result is again a well-typed context with the same target).
    If every slot of the input array holds a message, the processor
    returns a context whose array has the same length and again holds a
    message in every slot, and the scan for the last user message selects
    the same index in the result as in the input. *)
Theorem X3_well_typed_and_target_stable template config h context ms kv :
  messagesOf h context = Some ms ->
  metadataOf h context = Some kv ->
  allMessages h ms = true ->
  exists context' h' ms' kv',
    doProcess template config context h = Some (context', h') /\
    messagesOf h' context' = Some ms' /\
    metadataOf h' context' = Some kv' /\
    allMessages h' ms' = true /\
    length ms' = length ms /\
    lastUserIndex h' ms' = lastUserIndex h ms.
Proof.
  intros Hms Hkv Hwf.
  exists (length h + 2), (finalHeap template config h ms kv),
         (finalMessages template config h ms), (finalMetadata template config h ms kv).
  split; [by apply doProcess_spec|]. split; [apply messagesOf_finalHeap|].
  split; [apply metadataOf_finalHeap|]. split; [by apply allMessages_finalHeap|].
  split; [apply finalMessages_length|]. by apply lastUserIndex_finalHeap.
Qed.

Lemma X3_well_typed_and_target_stable_witness :
  exists context' h' ms' kv',
    doProcess specTemplate {| inputTemplate := Some "Context: {{text}}" |}
              sampleContext (sampleHeap (StringContent "hi")) = Some (context', h') /\
    messagesOf h' context' = Some ms' /\
    metadataOf h' context' = Some kv' /\
    allMessages h' ms' = true /\
    length ms' = 3 /\
    lastUserIndex h' ms' = lastUserIndex (sampleHeap (StringContent "hi")) [0; 1; 2].
Proof.
  apply (X3_well_typed_and_target_stable specTemplate
           {| inputTemplate := Some "Context: {{text}}" |}
           (sampleHeap (StringContent "hi")) sampleContext [0; 1; 2] sampleMetadata);
    reflexivity.
Defined.

(** X4 (two runs nest the template).  Run the processor twice with the
    same non-empty template, the second time on the context the first run
    returned.  The selected slot then holds a message whose content is the
    rendering of the rendering of the original content, with the [id] and
    [role] of the original message; the second run records 1 exactly when
    rendering the first result changes it again. *)
Theorem X4_two_runs_compose template config tpl compiler h context ms kv i l m s0 s1 s2 :
  messagesOf h context = Some ms ->
  metadataOf h context = Some kv ->
  allMessages h ms = true ->
  enabledTemplate config = Some tpl ->
  template tpl interpolate = Some compiler ->
  lastUserIndex h ms = Some i ->
  ms !! i = Some l ->
  messageAt h l = Some m ->
  content m = StringContent s0 ->
  compiler [("text", s0)] = Some s1 ->
  compiler [("text", s1)] = Some s2 ->
  exists context1 h1 context2 h2 ms2 l2 m2,
    doProcess template config context h = Some (context1, h1) /\
    doProcess template config context1 h1 = Some (context2, h2) /\
    messagesOf h2 context2 = Some ms2 /\
    length ms2 = length ms /\
    ms2 !! i = Some l2 /\
    messageAt h2 l2 = Some m2 /\
    content m2 = StringContent s2 /\
    id m2 = id m /\ role m2 = role m /\
    recordedCount h1 context1 = Some (VNumber (if String.eqb s1 s0 then 0 else 1)) /\
    recordedCount h2 context2 = Some (VNumber (if String.eqb s2 s1 then 0 else 1)).
Proof.
  intros Hms Hkv Hwf He Ht Hi Hl Hm Hc Hs0 Hs1.
  set (h1 := finalHeap template config h ms kv).
  set (ms1 := finalMessages template config h ms).
  set (kv1 := finalMetadata template config h ms kv).
  destruct (doProcess_selected_after template config tpl compiler h ms kv
              i l m s0 s1 Hwf He Ht Hi Hl Hm Hc Hs0)
    as (Hi1 & l1 & m1 & Hl1 & Hm1 & Hc1 & Hid1 & Hrole1 & _).
  fold h1 ms1 in Hi1, Hl1, Hm1.
  assert (allMessages h1 ms1 = true) as Hwf1 by (by apply allMessages_finalHeap).
  assert (messagesOf h1 (length h + 2) = Some ms1) as Hms1
    by apply messagesOf_finalHeap.
  assert (metadataOf h1 (length h + 2) = Some kv1) as Hkv1
    by apply metadataOf_finalHeap.
  destruct (doProcess_selected_after template config tpl compiler h1 ms1 kv1
              i l1 m1 s1 s2 Hwf1 He Ht Hi1 Hl1 Hm1 Hc1 Hs1)
    as (_ & l2 & m2 & Hl2 & Hm2 & Hc2 & Hid2 & Hrole2 & _).
  exists (length h + 2), h1, (length h1 + 2), (finalHeap template config h1 ms1 kv1),
         (finalMessages template config h1 ms1), l2, m2.
  split; [by apply doProcess_spec|].
  split; [by apply doProcess_spec|].
  split; [apply messagesOf_finalHeap|].
  split. { rewrite finalMessages_length. apply finalMessages_length. }
  split; [done|]. split; [done|]. split; [done|].
  split; [congruence|]. split; [congruence|].
  split.
  - unfold h1. rewrite recordedCount_finalHeap, He.
    rewrite (rewriteTarget_Some _ _ _ _ _ _ _ _ _ _ Ht Hi Hl Hm Hc Hs0).
    by destruct (String.eqb s1 s0).
  - rewrite recordedCount_finalHeap, He.
    rewrite (rewriteTarget_Some _ _ _ _ _ _ _ _ _ _ Ht Hi1 Hl1 Hm1 Hc1 Hs1).
    by destruct (String.eqb s2 s1).
Qed.

Lemma X4_two_runs_compose_witness :
  exists context1 h1 context2 h2 ms2 l2 m2,
    doProcess specTemplate {| inputTemplate := Some "Context: {{text}}" |}
              sampleContext (sampleHeap (StringContent "hi")) = Some (context1, h1) /\
    doProcess specTemplate {| inputTemplate := Some "Context: {{text}}" |}
              context1 h1 = Some (context2, h2) /\
    messagesOf h2 context2 = Some ms2 /\
    length ms2 = 3 /\
    ms2 !! 2 = Some l2 /\
    messageAt h2 l2 = Some m2 /\
    content m2 = StringContent "Context: Context: hi" /\
    id m2 = "m3" /\ role m2 = "user" /\
    recordedCount h1 context1 = Some (VNumber 1) /\
    recordedCount h2 context2 = Some (VNumber 1).
Proof.
  apply (X4_two_runs_compose specTemplate
           {| inputTemplate := Some "Context: {{text}}" |} "Context: {{text}}"
           (fun b => Some (render interpolate b 0 "Context: {{text}}"))
           (sampleHeap (StringContent "hi")) sampleContext [0; 1; 2] sampleMetadata
           2 2 (mkMessage "m3" "user" (StringContent "hi") [("createdAt", VNumber 17)])
           "hi" "Context: hi" "Context: Context: hi");
    reflexivity.
Defined.

Lemma scanDown_ext_below h ms ms' n :
  (forall j, j < n -> isUserAt h ms' j = isUserAt h ms j) ->
  scanDown h ms' n = scanDown h ms n.
Proof.
  induction n as [|n IH]; intros Hext; simpl; [done|].
  rewrite Hext by lia. rewrite IH; [done|]. intros j Hj. apply Hext. lia.
Qed.

(** X5 (the scan and the growth of a conversation).  An empty conversation
    has no target; a target is an index of the array; and when a slot is
    appended to the array, it becomes the target if it holds a user
    message, while otherwise the target stays where it was. *)
Theorem X5_scan_append h ms l :
  lastUserIndex h [] = None /\
  (forall i, lastUserIndex h ms = Some i -> i < length ms) /\
  lastUserIndex h (ms ++ [l]) =
    if isUserAt h (ms ++ [l]) (length ms) then Some (length ms) else lastUserIndex h ms.
Proof.
  split; [done|]. split.
  { intros i Hi. unfold lastUserIndex in Hi. by apply scanDown_Some in Hi as [? _]. }
  unfold lastUserIndex. rewrite length_app. simpl.
  replace (length ms + 1) with (S (length ms)) by lia. simpl.
  destruct (isUserAt h (ms ++ [l]) (length ms)); [done|].
  apply scanDown_ext_below. intros j Hj. unfold isUserAt.
  by rewrite lookup_app_l.
Qed.

Lemma X5_scan_append_witness :
  lastUserIndex (sampleHeap (StringContent "hi")) [] = None /\
  (forall i, lastUserIndex (sampleHeap (StringContent "hi")) [0; 1] = Some i -> i < 2) /\
  lastUserIndex (sampleHeap (StringContent "hi")) ([0; 1] ++ [2]) = Some 2.
Proof.
  apply (X5_scan_append (sampleHeap (StringContent "hi")) [0; 1] 2).
Defined.

(** X6 (the outcome depends on the engine through one rendering only).
    With a non-empty template configured, two engines that both compile
    the template and render the content of the selected message alike give
    the same result, whatever they do on other texts; and when there is no
    user message, every two engines give the same result, so that even a
    failing compilation is not observable. *)
Theorem X6_engine_locality template1 template2 config tpl h context ms kv :
  messagesOf h context = Some ms ->
  metadataOf h context = Some kv ->
  enabledTemplate config = Some tpl ->
  (forall compiler1 compiler2 i l m s,
     template1 tpl interpolate = Some compiler1 ->
     template2 tpl interpolate = Some compiler2 ->
     lastUserIndex h ms = Some i ->
     ms !! i = Some l ->
     messageAt h l = Some m ->
     content m = StringContent s ->
     compiler1 [("text", s)] = compiler2 [("text", s)] ->
     doProcess template1 config context h = doProcess template2 config context h) /\
  (lastUserIndex h ms = None ->
   doProcess template1 config context h = doProcess template2 config context h).
Proof.
  intros Hms Hkv He.
  assert (rewriteTarget template1 tpl h ms = rewriteTarget template2 tpl h ms ->
          doProcess template1 config context h = doProcess template2 config context h)
    as Hsame.
  { intros Heq.
    rewrite (doProcess_spec template1 config h context ms kv Hms Hkv).
    rewrite (doProcess_spec template2 config h context ms kv Hms Hkv).
    unfold finalHeap, finalMetadata. by rewrite He, Heq. }
  split.
  - intros compiler1 compiler2 i l m s Ht1 Ht2 Hi Hl Hm Hc Hs. apply Hsame.
    unfold rewriteTarget. rewrite Ht1, Ht2. simpl. rewrite Hi. simpl.
    rewrite Hl. simpl. rewrite Hm. simpl. by rewrite Hc, Hs.
  - intros Hnone. apply Hsame. by rewrite !rewriteTarget_no_user.
Qed.

Lemma X6_engine_locality_witness :
  doProcess specTemplate {| inputTemplate := Some "Context: {{text}}" |}
            sampleContext (sampleHeap (StringContent "hi")) =
  doProcess rendersHiOnly {| inputTemplate := Some "Context: {{text}}" |}
            sampleContext (sampleHeap (StringContent "hi")) /\
  doProcess specTemplate {| inputTemplate := Some "Context: {{text}}" |}
            noUserContext noUserHeap =
  doProcess compileThrows {| inputTemplate := Some "Context: {{text}}" |}
            noUserContext noUserHeap.
Proof.
  split.
  - refine (proj1 (X6_engine_locality specTemplate rendersHiOnly
                     {| inputTemplate := Some "Context: {{text}}" |} "Context: {{text}}"
                     (sampleHeap (StringContent "hi")) sampleContext [0; 1; 2]
                     sampleMetadata eq_refl eq_refl eq_refl)
                  (fun b => Some (render interpolate b 0 "Context: {{text}}"))
                  (fun b => if String.eqb (lookupBinding "text" b) "hi"
                            then Some "Context: hi" else None)
                  2 2
                  (mkMessage "m3" "user" (StringContent "hi") [("createdAt", VNumber 17)])
                  "hi" eq_refl eq_refl eq_refl eq_refl eq_refl eq_refl eq_refl).
  - refine (proj2 (X6_engine_locality specTemplate compileThrows
                     {| inputTemplate := Some "Context: {{text}}" |} "Context: {{text}}"
                     noUserHeap noUserContext [0; 1] sampleMetadata
                     eq_refl eq_refl eq_refl) eq_refl).
Defined.

(** ** Placeholders do not overlap *)

Lemma interpolate_head_not_brace c s :
  Ascii.eqb "{" c = false -> interpolate (String c s) = None.
Proof. intros Hc. unfold interpolate. cbn [stripPrefix]. by rewrite Hc. Qed.

Lemma interpolate_second_not_brace c s :
  Ascii.eqb "{" c = false -> interpolate (String "{" (String c s)) = None.
Proof.
  intros Hc. unfold interpolate. cbn [stripPrefix].
  rewrite Ascii.eqb_refl. by rewrite Hc.
Qed.

Lemma isWhiteSpace_not_brace c : isWhiteSpace c = true -> Ascii.eqb "{" c = false.
Proof.
  intros Hc. destruct (Ascii.eqb "{" c) eqn:He; [|done].
  apply Ascii.eqb_eq in He. subst c. discriminate Hc.
Qed.

Lemma noBrace_whiteSpace w : allWhiteSpace w = true -> noBrace w = true.
Proof.
  induction w as [|c w IH]; [done|]. cbn [allWhiteSpace noBrace].
  intros [Hc Hw]%andb_true_iff. rewrite (isWhiteSpace_not_brace c Hc). by apply IH.
Qed.

Lemma noBrace_app s t : noBrace s = true -> noBrace t = true -> noBrace (s +:+ t) = true.
Proof.
  intros Hs Ht. induction s as [|c s IH]; [done|].
  change (String c s +:+ t) with (String c (s +:+ t)). cbn [noBrace] in *.
  apply andb_true_iff in Hs as [-> Hs]. by apply IH.
Qed.

Lemma dropString_noBrace b rest j :
  noBrace b = true -> j < String.length b ->
  exists c t, dropString j (b +:+ rest) = String c t /\ Ascii.eqb "{" c = false.
Proof.
  revert j. induction b as [|c b IH]; intros j Hb Hj; [simpl in Hj; lia|].
  change (String c b +:+ rest) with (String c (b +:+ rest)).
  cbn [noBrace] in Hb. apply andb_true_iff in Hb as [Hc Hb].
  destruct j as [|j].
  - exists c, (b +:+ rest). split; [done|]. by destruct (Ascii.eqb "{" c).
  - cbn [dropString]. apply IH; [done|]. simpl in Hj. lia.
Qed.

(** X7 (placeholders do not overlap).  Where the pattern of the processor
    matches, it matches at no later position inside that match: a
    placeholder contains no second placeholder, so the global, left to
    right search finds every placeholder of a template. *)
Theorem X7_placeholders_do_not_overlap s g n k :
  interpolate s = Some (g, n) ->
  0 < k -> k < n ->
  interpolate (dropString k s) = None.
Proof.
  intros (w1 & w2 & rest & -> & Hw1 & Hw2 & _ & ->)%interpolate_iff Hk Hkn.
  pose (body := w1 +:+ "text" +:+ w2 +:+ "}}").
  assert (noBrace body = true) as Hbody.
  { unfold body. apply noBrace_app; [by apply noBrace_whiteSpace|].
    change ("text" +:+ w2 +:+ "}}") with ("text" +:+ (w2 +:+ "}}")).
    apply noBrace_app; [done|]. apply noBrace_app; [by apply noBrace_whiteSpace|done]. }
  assert (String.length body = 6 + String.length w1 + String.length w2) as Hlen.
  { unfold body. string_lengths. lia. }
  replace ("{{" +:+ w1 +:+ "text" +:+ w2 +:+ "}}" +:+ rest)
    with (String "{" (String "{" (body +:+ rest))).
  2:{ unfold body. by rewrite !string_append_assoc. }
  destruct k as [|[|j]]; [lia| |].
  - cbn [dropString].
    destruct (dropString_noBrace body rest 0 Hbody ltac:(lia)) as (c & t & Hd & Hc).
    cbn [dropString] in Hd. rewrite Hd. by apply interpolate_second_not_brace.
  - cbn [dropString].
    destruct (dropString_noBrace body rest j Hbody ltac:(lia)) as (c & t & -> & Hc).
    by apply interpolate_head_not_brace.
Qed.

Lemma X7_placeholders_do_not_overlap_witness :
  interpolate (dropString 2 "{{{{ text }}}}") = Some ("text", 10) /\
  interpolate (dropString 5 (dropString 2 "{{{{ text }}}}")) = None.
Proof.
  split; [reflexivity|].
  apply (X7_placeholders_do_not_overlap (dropString 2 "{{{{ text }}}}") "text" 10 5);
    [reflexivity|lia|lia].
Defined.
